(** * user_sgi: a shallow embedding of the user-mode SGI driver

    The driver (user_sgi.c) keeps two globals, [ipi_dev] and [ipi_count],
    registers [handle_ipi] for one software generated interrupt and exposes
    the counter through the sysfs attribute [count].  The kernel services it
    calls (devres, the IPI dispatch table, sysfs, the device tree accessor)
    are modelled by their contract over an explicit kernel state; every call
    is also appended to a trace so that the order of effects can be stated. *)

From Stdlib Require Import ZArith String Ascii DecimalString DecimalFacts.
From Stdlib Require DecimalPos DecimalZ.
From stdpp Require Import base option gmap sets list strings.

Local Open Scope Z_scope.

(** ** Fixed-width integers *)

(** Conversion to [u32]: arithmetic on [u32] wraps modulo 2^32. *)
Definition u32 (z : Z) : Z := z mod 2 ^ 32.

(** The value of a [u32] when it is read as an [int] (two's complement). *)
Definition int_of_u32 (z : Z) : Z :=
  let w := u32 z in if w <? 2 ^ 31 then w else w - 2 ^ 32.

(** Decimal text of an integer, with a leading minus sign when negative. *)
Definition decimal (z : Z) : string := NilZero.string_of_int (Z.to_int z).

Definition nl : string := String (ascii_of_nat 10) EmptyString.

(** ** Constants of the kernel headers *)

Definition ENOMEM : Z := 12.
Definition EBUSY : Z := 16.
Definition EEXIST : Z := 17.
Definition EINVAL : Z := 22.
Definition ENODATA : Z := 61.

(** asm/page.h is not part of the driver: 4 KiB pages, as on the ARM
    targets the driver is written for. *)
Definition PAGE_SIZE : Z := 4096.

Definition DRIVER_NAME : string := "user_sgi".
Definition IPI_NUMBER_NAME : string := "ipi_number".

(** [dev_attr_count.attr.name], as declared by [DEVICE_ATTR_RO(count)]. *)
Definition dev_attr_count : string := "count".

(** ** Data *)

(** A [struct device *]: devices are identified by their address. *)
Definition dev_ptr : Type := Z.

(** A [struct user_sgi_data *]: the driver makes one managed allocation per
    device, which is addressed by the device that owns it. *)
Definition data_ptr : Type := dev_ptr.

Record user_sgi_data : Type := { ipi_number : Z }.

(** A platform device: its embedded [struct device] and the properties of
    its device tree node, each a list of 32-bit cells. *)
Record platform_device : Type := {
  dev : dev_ptr;
  of_node : gmap string (list Z)
}.

(** Every call that leaves the driver, and every access to its globals. *)
Inductive event : Type :=
| Printk (msg : string)
| DevmKzalloc (d : dev_ptr) (ok : bool)
| LoadIpiCount (v : Z)
| StoreIpiCount (v : Z)
| LoadIpiDev (v : option dev_ptr)
| StoreIpiDev (v : option dev_ptr)
| SetIpiHandler (ipinr : Z) (res : Z)
| ClearIpiHandler (ipinr : Z)
| DeviceCreateFile (d : dev_ptr) (name : string) (res : Z)
| DeviceRemoveFile (d : dev_ptr) (name : string)
| SysfsNotify (d : dev_ptr) (name : string)
| DevresReleaseAll (d : dev_ptr).

(** The kernel state the driver can see or change. *)
Record kstate : Type := {
  ipi_dev : option dev_ptr;          (* static struct device *ipi_dev *)
  ipi_count : Z;                     (* static u32 ipi_count *)
  ipi_types : gmap Z string;         (* dispatch table: description of the handler of each IPI *)
  sysfs : gset (dev_ptr * string);   (* attribute files that exist *)
  devres : gmap data_ptr user_sgi_data;  (* managed allocations *)
  drvdata : gmap dev_ptr data_ptr;   (* dev->driver_data; no entry is NULL *)
  trace : list event
}.

(** What the driver cannot decide: whether memory is available and what
    sysfs answers when a file is created (0 or a negative errno). *)
Record oracle : Type := {
  kzalloc_ok : bool;
  create_file_err : Z
}.

(** State at module load: the initialisers of the two globals. *)
Definition boot : kstate :=
  {| ipi_dev := None; ipi_count := 0; ipi_types := ∅; sysfs := ∅;
     devres := ∅; drvdata := ∅; trace := [] |}.

Definition set_ipi_dev (v : option dev_ptr) (st : kstate) : kstate :=
  {| ipi_dev := v; ipi_count := ipi_count st; ipi_types := ipi_types st;
     sysfs := sysfs st; devres := devres st; drvdata := drvdata st;
     trace := trace st |}.

Definition set_ipi_count (v : Z) (st : kstate) : kstate :=
  {| ipi_dev := ipi_dev st; ipi_count := v; ipi_types := ipi_types st;
     sysfs := sysfs st; devres := devres st; drvdata := drvdata st;
     trace := trace st |}.

Definition set_ipi_types (t : gmap Z string) (st : kstate) : kstate :=
  {| ipi_dev := ipi_dev st; ipi_count := ipi_count st; ipi_types := t;
     sysfs := sysfs st; devres := devres st; drvdata := drvdata st;
     trace := trace st |}.

Definition set_sysfs (s : gset (dev_ptr * string)) (st : kstate) : kstate :=
  {| ipi_dev := ipi_dev st; ipi_count := ipi_count st; ipi_types := ipi_types st;
     sysfs := s; devres := devres st; drvdata := drvdata st;
     trace := trace st |}.

Definition set_devres (h : gmap data_ptr user_sgi_data) (st : kstate) : kstate :=
  {| ipi_dev := ipi_dev st; ipi_count := ipi_count st; ipi_types := ipi_types st;
     sysfs := sysfs st; devres := h; drvdata := drvdata st;
     trace := trace st |}.

Definition set_drvdata (m : gmap dev_ptr data_ptr) (st : kstate) : kstate :=
  {| ipi_dev := ipi_dev st; ipi_count := ipi_count st; ipi_types := ipi_types st;
     sysfs := sysfs st; devres := devres st; drvdata := m;
     trace := trace st |}.

Definition log (e : event) (st : kstate) : kstate :=
  {| ipi_dev := ipi_dev st; ipi_count := ipi_count st; ipi_types := ipi_types st;
     sysfs := sysfs st; devres := devres st; drvdata := drvdata st;
     trace := trace st ++ [e] |}.

(** ** Kernel code as state passing with faults

    A computation returns a value and the next state, or [None] when it
    dereferences a pointer that is NULL or dangling. *)

Definition K (A : Type) : Type := kstate → option (A * kstate).

Definition ret {A} (a : A) : K A := λ st, Some (a, st).

Definition bind {A B} (m : K A) (f : A → K B) : K B :=
  λ st, match m st with
        | Some (a, st') => f a st'
        | None => None
        end.

Definition get : K kstate := λ st, Some (st, st).

Definition modify (f : kstate → kstate) : K unit := λ st, Some (tt, f st).

Definition emit (e : event) : K unit := modify (log e).

Notation "'let*' x ':=' m 'in' k" := (bind m (λ x, k))
  (at level 10, x name, m at level 100, k at level 200, only parsing).
Notation "m ';;' k" := (bind m (λ _, k))
  (at level 100, k at level 200, right associativity, only parsing).

(** ** Kernel services, by their contract *)

Definition printk (msg : string) : K unit := emit (Printk msg).

(** [devm_kzalloc(dev, size, GFP_KERNEL)]: a zeroed allocation owned by the
    device, or NULL. *)
Definition devm_kzalloc (o : oracle) (d : dev_ptr) : K (option data_ptr) :=
  if kzalloc_ok o then
    (modify (λ st, set_devres (<[d := {| ipi_number := 0 |}]> (devres st)) st);;
     emit (DevmKzalloc d true);;
     ret (Some d))
  else
    (emit (DevmKzalloc d false);; ret None).

Definition platform_set_drvdata (pdev : platform_device) (data : data_ptr) : K unit :=
  modify (λ st, set_drvdata (<[dev pdev := data]> (drvdata st)) st).

Definition platform_get_drvdata (pdev : platform_device) : K (option data_ptr) :=
  λ st, Some (drvdata st !! dev pdev, st).

(** [data->ipi_number]: faults unless [data] points to a live allocation. *)
Definition read_ipi_number (data : option data_ptr) : K Z :=
  λ st, match data with
        | Some p => match devres st !! p with
                    | Some x => Some (ipi_number x, st)
                    | None => None
                    end
        | None => None
        end.

Definition write_ipi_number (data : option data_ptr) (v : Z) : K unit :=
  λ st, match data with
        | Some p => match devres st !! p with
                    | Some _ => Some (tt, set_devres (<[p := {| ipi_number := v |}]> (devres st)) st)
                    | None => None
                    end
        | None => None
        end.

(** [of_property_read_u32(np, name, &out)]: -EINVAL when the property does
    not exist, -ENODATA when it has no value, otherwise its first cell is
    stored and 0 returned. *)
Definition of_property_read_u32 (np : gmap string (list Z)) (name : string)
  : Z * option Z :=
  match np !! name with
  | None => (- EINVAL, None)
  | Some [] => (- ENODATA, None)
  | Some (c :: _) => (0, Some (u32 c))
  end.

(** [set_ipi_handler(ipinr, handler, desc)]: refuses an IPI that already has
    a handler. *)
Definition set_ipi_handler (ipinr : Z) (desc : string) : K Z :=
  let* st := get in
  match ipi_types st !! ipinr with
  | Some _ => emit (SetIpiHandler ipinr (-1));; ret (-1)
  | None =>
      modify (λ st, set_ipi_types (<[ipinr := desc]> (ipi_types st)) st);;
      emit (SetIpiHandler ipinr 0);;
      ret 0
  end.

Definition clear_ipi_handler (ipinr : Z) : K unit :=
  modify (λ st, set_ipi_types (delete ipinr (ipi_types st)) st);;
  emit (ClearIpiHandler ipinr).

(** [device_create_file(dev, attr)]: -EEXIST when the file is there already,
    otherwise what sysfs answers. *)
Definition device_create_file (o : oracle) (d : dev_ptr) (name : string) : K Z :=
  let* st := get in
  if bool_decide ((d, name) ∈ sysfs st) then
    emit (DeviceCreateFile d name (- EEXIST));; ret (- EEXIST)
  else if create_file_err o =? 0 then
    modify (λ st, set_sysfs ({[ (d, name) ]} ∪ sysfs st) st);;
    emit (DeviceCreateFile d name 0);;
    ret 0
  else
    emit (DeviceCreateFile d name (create_file_err o));;
    ret (create_file_err o).

Definition device_remove_file (d : dev_ptr) (name : string) : K unit :=
  modify (λ st, set_sysfs (sysfs st ∖ {[ (d, name) ]}) st);;
  emit (DeviceRemoveFile d name).

Definition sysfs_notify (d : dev_ptr) (name : string) : K unit :=
  emit (SysfsNotify d name).

(** [snprintf(buf, size, "%d", v)] with a [u32] argument: the argument is
    read as an [int]; at most [size - 1] characters are stored and the
    length of the whole text is returned. *)
Definition snprintf_d (size : Z) (v : Z) : string * Z :=
  let s := decimal (int_of_u32 v) in
  (substring 0 (Z.to_nat (size - 1)) s, Z.of_nat (String.length s)).

(** Accesses to the two globals: the plain read of [ipi_count] in
    [ipi_count + 1], and the acquire loads and release stores. *)
Definition read_ipi_count : K Z :=
  λ st, Some (ipi_count st, log (LoadIpiCount (ipi_count st)) st).

Definition smp_load_acquire_ipi_count : K Z :=
  λ st, Some (ipi_count st, log (LoadIpiCount (ipi_count st)) st).

Definition smp_store_release_ipi_count (v : Z) : K unit :=
  modify (set_ipi_count v);; emit (StoreIpiCount v).

Definition smp_load_acquire_ipi_dev : K (option dev_ptr) :=
  λ st, Some (ipi_dev st, log (LoadIpiDev (ipi_dev st)) st).

Definition smp_store_release_ipi_dev (v : option dev_ptr) : K unit :=
  modify (set_ipi_dev v);; emit (StoreIpiDev v).

(** ** The driver *)

Definition count_show : K (string * Z) :=
  let* c := smp_load_acquire_ipi_count in
  ret (snprintf_d PAGE_SIZE c).

Definition handle_ipi : K unit :=
  let* c := read_ipi_count in
  smp_store_release_ipi_count (u32 (c + 1));;
  let* d := smp_load_acquire_ipi_dev in
  match d with
  | None => ret tt
  | Some d => sysfs_notify d dev_attr_count
  end.

Definition allocate_device_data (o : oracle) (pdev : platform_device) : K Z :=
  let* data := devm_kzalloc o (dev pdev) in
  match data with
  | None => ret (- ENOMEM)
  | Some data => platform_set_drvdata pdev data;; ret 0
  end.

Definition get_ipi_number (pdev : platform_device) (data : option data_ptr) : K Z :=
  match of_property_read_u32 (of_node pdev) "ipi_number" with
  | (r, Some v) => write_ipi_number data v;; ret r
  | (r, None) => ret r
  end.

Definition release_after_ipi (pdev : platform_device) (result : Z) : K Z :=
  smp_store_release_ipi_dev None;;
  let* data := platform_get_drvdata pdev in
  let* n := read_ipi_number data in
  clear_ipi_handler (int_of_u32 n);;
  ret result.

Definition release_after_attribute_count (pdev : platform_device) (result : Z) : K Z :=
  device_remove_file (dev pdev) dev_attr_count;;
  release_after_ipi pdev result.

Definition user_sgi_probe (o : oracle) (pdev : platform_device) : K Z :=
  printk ("probing user sgi" +:+ nl);;
  let* allocate_result := allocate_device_data o pdev in
  if negb (allocate_result =? 0) then ret allocate_result else
  let* data := platform_get_drvdata pdev in
  let* get_ipi_number_result := get_ipi_number pdev data in
  if get_ipi_number_result <? 0 then ret get_ipi_number_result else
  smp_store_release_ipi_dev (Some (dev pdev));;
  let* n := read_ipi_number data in
  let* r := set_ipi_handler (int_of_u32 n) "user sgi" in
  if negb (r =? 0) then ret (- EBUSY) else
  let* create_device_result := device_create_file o (dev pdev) dev_attr_count in
  if negb (create_device_result =? 0) then release_after_ipi pdev create_device_result else
  let* n := read_ipi_number data in
  printk ("user sgi activated for IPI number " +:+ decimal (int_of_u32 n) +:+ nl);;
  ret 0.

Definition user_sgi_remove (pdev : platform_device) : K Z :=
  printk ("removing user sgi" +:+ nl);;
  release_after_attribute_count pdev 0.

(** ** The driver core around probe and remove

    The per-instance state is a managed allocation: the driver never frees
    it, the driver core does, after a failed probe and after remove. *)

Definition devres_release_all (d : dev_ptr) : K unit :=
  modify (λ st, set_devres (delete d (devres st)) st);;
  modify (λ st, set_drvdata (delete d (drvdata st)) st);;
  emit (DevresReleaseAll d).

Definition driver_probe (o : oracle) (pdev : platform_device) : K Z :=
  let* r := user_sgi_probe o pdev in
  if r =? 0 then ret 0 else devres_release_all (dev pdev);; ret r.

Definition driver_remove (pdev : platform_device) : K Z :=
  let* r := user_sgi_remove pdev in
  devres_release_all (dev pdev);;
  ret r.

(** ** Handler invocations on several cores

    [handle_ipi] makes four accesses; between any two of them another core
    may run.  A core is at one of the following points of the function. *)

Inductive hpc : Type :=
| AtLoadCount                       (* before reading ipi_count *)
| AtStoreCount (c : Z)              (* ipi_count read as c, before the store *)
| AtLoadDev                         (* before reading ipi_dev *)
| AtNotify (d : option dev_ptr)     (* ipi_dev read, before the test *)
| Returned.

Definition handle_ipi_step (pc : hpc) : K hpc :=
  match pc with
  | AtLoadCount => let* c := read_ipi_count in ret (AtStoreCount c)
  | AtStoreCount c => smp_store_release_ipi_count (u32 (c + 1));; ret AtLoadDev
  | AtLoadDev => let* d := smp_load_acquire_ipi_dev in ret (AtNotify d)
  | AtNotify None => ret Returned
  | AtNotify (Some d) => sysfs_notify d dev_attr_count;; ret Returned
  | Returned => ret Returned
  end.

(** A schedule names, step by step, the core that runs next. *)
Fixpoint run_cores (sched : list nat) (cores : list hpc) : K (list hpc) :=
  match sched with
  | [] => ret cores
  | i :: sched' =>
      match cores !! i with
      | Some pc =>
          let* pc' := handle_ipi_step pc in
          run_cores sched' (<[i := pc']> cores)
      | None => run_cores sched' cores
      end
  end.

(** [n] invocations, one after the other. *)
Fixpoint handle_ipi_times (n : nat) : K unit :=
  match n with
  | O => ret tt
  | S n' => handle_ipi;; handle_ipi_times n'
  end.

(** ** The states the driver functions lead to *)

(** The state after a successful [allocate_device_data]. *)
Definition allocated (pdev : platform_device) (st : kstate) : kstate :=
  set_drvdata (<[dev pdev := dev pdev]> (drvdata st))
    (log (DevmKzalloc (dev pdev) true)
       (set_devres (<[dev pdev := {| ipi_number := 0 |}]> (devres st)) st)).

(** What [device_create_file] returns in a state. *)
Definition create_result (o : oracle) (d : dev_ptr) (st : kstate) : Z :=
  if bool_decide ((d, dev_attr_count) ∈ sysfs st) then - EEXIST else create_file_err o.

(** The state of probe when it registers the handler: the message is
    written, the state allocated and filled in, the reference published. *)
Definition published (pdev : platform_device) (c : Z) (st : kstate) : kstate :=
  let st1 := allocated pdev (log (Printk ("probing user sgi" +:+ nl)) st) in
  let st2 := set_devres (<[dev pdev := {| ipi_number := u32 c |}]> (devres st1)) st1 in
  log (StoreIpiDev (Some (dev pdev))) (set_ipi_dev (Some (dev pdev)) st2).

(** The state of probe once the handler is registered. *)
Definition registered (pdev : platform_device) (c : Z) (st : kstate) : kstate :=
  let st1 := published pdev c st in
  log (SetIpiHandler (int_of_u32 c) 0)
    (set_ipi_types (<[int_of_u32 c := "user sgi"%string]> (ipi_types st1)) st1).

(** The state after a successful probe. *)
Definition probed (pdev : platform_device) (c : Z) (st : kstate) : kstate :=
  let st1 := registered pdev c st in
  log (Printk ("user sgi activated for IPI number " +:+ decimal (int_of_u32 c) +:+ nl))
    (log (DeviceCreateFile (dev pdev) dev_attr_count 0)
       (set_sysfs ({[ (dev pdev, dev_attr_count) ]} ∪ sysfs st1) st1)).

(** The state after [release_after_ipi] for IPI [n]. *)
Definition released_ipi (n : Z) (st : kstate) : kstate :=
  log (ClearIpiHandler n)
    (set_ipi_types (delete n (ipi_types st))
       (log (StoreIpiDev None) (set_ipi_dev None st))).

(** The state after [user_sgi_remove] for an instance on IPI [n]. *)
Definition removed (pdev : platform_device) (n : Z) (st : kstate) : kstate :=
  let st1 := log (Printk ("removing user sgi" +:+ nl)) st in
  released_ipi n
    (log (DeviceRemoveFile (dev pdev) dev_attr_count)
       (set_sysfs (sysfs st1 ∖ {[ (dev pdev, dev_attr_count) ]}) st1)).

(** The state after the driver core has released the managed state. *)
Definition devres_released (d : dev_ptr) (st : kstate) : kstate :=
  log (DevresReleaseAll d)
    (set_drvdata (delete d (drvdata st)) (set_devres (delete d (devres st)) st)).

(** ** Lifecycle states and sample inputs *)

(** The instance of [pdev] is active: its reference is published, its
    state is allocated and holds the IPI number of the device tree node,
    the handler of that IPI is registered and the attribute exists. *)
Definition active (pdev : platform_device) (st : kstate) : Prop :=
  ipi_dev st = Some (dev pdev) ∧
  ∃ p x,
    drvdata st !! dev pdev = Some p ∧
    devres st !! p = Some x ∧
    of_property_read_u32 (of_node pdev) "ipi_number" = (0, Some (ipi_number x)) ∧
    is_Some (ipi_types st !! int_of_u32 (ipi_number x)) ∧
    (dev pdev, dev_attr_count) ∈ sysfs st.

(** Nothing of an instance for [pdev] on IPI [n] is left. *)
Definition uninitialized (pdev : platform_device) (n : Z) (st : kstate) : Prop :=
  ipi_dev st = None ∧
  ipi_types st !! n = None ∧
  ((dev pdev, dev_attr_count) ∉ sysfs st) ∧
  drvdata st !! dev pdev = None ∧
  devres st !! dev pdev = None.

Definition node8 : gmap string (list Z) := {[ "ipi_number"%string := [8] ]}.
Definition pdevA : platform_device := {| dev := 1; of_node := node8 |}.
Definition pdevB : platform_device := {| dev := 2; of_node := node8 |}.
Definition no_faults : oracle := {| kzalloc_ok := true; create_file_err := 0 |}.
Definition no_memory : oracle := {| kzalloc_ok := false; create_file_err := 0 |}.
Definition no_sysfs : oracle := {| kzalloc_ok := true; create_file_err := -5 |}.

(** The state after [pdevA] has been probed at boot. *)
Definition activeA : kstate :=
  match driver_probe no_faults pdevA boot with
  | Some (_, st) => st
  | None => boot
  end.

(** ** Observations for the further properties *)

(** The number of calls of [sysfs_notify] for the attribute [name] of the
    device [d] in a trace. *)
Fixpoint notifications (d : dev_ptr) (name : string) (tr : list event) : nat :=
  match tr with
  | [] => 0
  | SysfsNotify d' name' :: tr' =>
      if bool_decide (d' = d ∧ name' = name)
      then S (notifications d name tr')
      else notifications d name tr'
  | _ :: tr' => notifications d name tr'
  end.

(** A device whose device tree node has no property at all. *)
Definition pdev_bare : platform_device := {| dev := 3; of_node := ∅ |}.

(** A second instance, on IPI 9. *)
Definition node9 : gmap string (list Z) := {[ "ipi_number"%string := [9] ]}.
Definition pdevC : platform_device := {| dev := 4; of_node := node9 |}.

(** The calls made by [user_sgi_remove] for an instance on IPI [n], in the
    order of the source. *)
Definition remove_calls (pdev : platform_device) (n : Z) : list (K unit) :=
  [printk ("removing user sgi" +:+ nl);
   device_remove_file (dev pdev) dev_attr_count;
   smp_store_release_ipi_dev None;
   clear_ipi_handler n].

Fixpoint run_calls (calls : list (K unit)) : K unit :=
  match calls with
  | [] => ret tt
  | m :: calls' => m;; run_calls calls'
  end.

(** Remove on one core, with an invocation of the handler on another core
    that runs after the first [k] calls of remove. *)
Definition remove_with_handler (k : nat) (pdev : platform_device) (n : Z) : K unit :=
  run_calls (take k (remove_calls pdev n));;
  handle_ipi;;
  run_calls (drop k (remove_calls pdev n)).

(** Whether a core has made its store to the counter, and the number of
    cores that have. *)
Definition stored (pc : hpc) : bool :=
  match pc with
  | AtLoadCount | AtStoreCount _ => false
  | AtLoadDev | AtNotify _ | Returned => true
  end.

Fixpoint stores_done (cores : list hpc) : nat :=
  match cores with
  | [] => 0
  | pc :: cores' => (if stored pc then 1 else 0) + stores_done cores'
  end.

(** The value a core has read and not yet stored lies between [lo] and
    [hi]. *)
Definition pending_between (lo hi : Z) (pc : hpc) : Prop :=
  match pc with
  | AtStoreCount c => lo ≤ c ≤ hi
  | _ => True
  end.

(** What holds of the counter while invocations that started at the
    value [init] are under way on [cores]. *)
Definition counted (init : Z) (cores : list hpc) (st : kstate) : Prop :=
  init ≤ ipi_count st ≤ init + Z.of_nat (stores_done cores) ∧
  (stores_done cores = 0%nat ∨ init + 1 ≤ ipi_count st) ∧
  Forall (pending_between init (init + Z.of_nat (stores_done cores))) cores.

(** * Properties *)

(** ** Arithmetic of the counter type *)

Lemma u32_range (z : Z) : 0 ≤ u32 z < 2 ^ 32.
Proof. unfold u32. apply Z.mod_pos_bound. lia. Qed.

Lemma u32_idem (z : Z) : u32 (u32 z) = u32 z.
Proof. unfold u32. apply Z.mod_mod. lia. Qed.

Lemma int_of_u32_u32 (z : Z) : int_of_u32 (u32 z) = int_of_u32 z.
Proof. unfold int_of_u32. by rewrite u32_idem. Qed.

Lemma u32_succ_plus (c : Z) (n : nat) :
  u32 (u32 (c + 1) + Z.of_nat n) = u32 (c + Z.of_nat (S n)).
Proof.
  unfold u32. rewrite Zplus_mod_idemp_l. f_equal. lia.
Qed.

(** ** The handler, run without interruption *)

Lemma handle_ipi_run (st : kstate) :
  handle_ipi st =
  Some (tt,
        let c := u32 (ipi_count st + 1) in
        let st1 := log (LoadIpiDev (ipi_dev st))
                     (log (StoreIpiCount c)
                        (set_ipi_count c (log (LoadIpiCount (ipi_count st)) st))) in
        match ipi_dev st with
        | Some d => log (SysfsNotify d dev_attr_count) st1
        | None => st1
        end).
Proof.
  destruct st as [d c t s h m tr]. unfold handle_ipi. cbn.
  destruct d; reflexivity.
Qed.

(** C5: an invocation of the handler first increments the counter, then
    loads the device reference, and then calls [sysfs_notify] on the
    attribute "count" exactly when the loaded reference is not NULL; it
    always returns, without a fault. *)
Theorem handle_ipi_increment_load_notify (st : kstate) :
  ∃ st',
    handle_ipi st = Some (tt, st') ∧
    ipi_count st' = u32 (ipi_count st + 1) ∧
    trace st' =
      trace st ++
      [LoadIpiCount (ipi_count st);
       StoreIpiCount (u32 (ipi_count st + 1));
       LoadIpiDev (ipi_dev st)] ++
      match ipi_dev st with
      | Some d => [SysfsNotify d "count"]
      | None => []
      end.
Proof.
  rewrite handle_ipi_run. eexists. split; [reflexivity|].
  destruct st as [d c t s h m tr]; destruct d; cbn.
  - split; [reflexivity|]. by rewrite <- !app_assoc.
  - split; [reflexivity|]. by rewrite <- !app_assoc.
Qed.

(** C7: the counter starts at 0; an invocation of the handler never fails
    and leaves the counter at its old value plus one modulo 2^32, again
    an unsigned 32-bit value; from 2^32 - 1 it wraps to 0.  The store of
    the handler always writes the value it has read plus one modulo 2^32. *)
Theorem ipi_count_increment_wraps (st : kstate) (c : Z) :
  ipi_count boot = 0 ∧
  (∃ st',
     handle_ipi st = Some (tt, st') ∧
     ipi_count st' = (ipi_count st + 1) mod 2 ^ 32 ∧
     0 ≤ ipi_count st' < 2 ^ 32) ∧
  (∃ st',
     handle_ipi (set_ipi_count (2 ^ 32 - 1) st) = Some (tt, st') ∧
     ipi_count st' = 0) ∧
  (∃ st',
     handle_ipi_step (AtStoreCount c) st = Some (AtLoadDev, st') ∧
     ipi_count st' = (c + 1) mod 2 ^ 32).
Proof.
  split; [reflexivity|]. split; [|split].
  - rewrite handle_ipi_run. eexists. split; [reflexivity|].
    destruct st as [d n t s h m tr]; destruct d;
      (split; [reflexivity | apply u32_range]).
  - rewrite handle_ipi_run. eexists. split; [reflexivity|].
    destruct st as [d n t s h m tr]; destruct d; reflexivity.
  - eexists. split; reflexivity.
Qed.

(** C9: when the handler finds the device reference NULL it has already
    stored the incremented counter: after its first two accesses the
    counter is advanced, whatever the reference is, and the complete
    invocation advances the counter and notifies nobody. *)
Theorem handle_ipi_counts_without_device (st : kstate) :
  ipi_dev st = None →
  (∃ st2,
     run_cores [0%nat; 0%nat] [AtLoadCount] st = Some ([AtLoadDev], st2) ∧
     ipi_count st2 = u32 (ipi_count st + 1)) ∧
  (∃ st',
     handle_ipi st = Some (tt, st') ∧
     ipi_count st' = u32 (ipi_count st + 1) ∧
     ipi_dev st' = None ∧
     trace st' =
       trace st ++
       [LoadIpiCount (ipi_count st);
        StoreIpiCount (u32 (ipi_count st + 1));
        LoadIpiDev None]).
Proof.
  intros Hnull. split.
  - eexists. split; reflexivity.
  - rewrite handle_ipi_run, Hnull. eexists. split; [reflexivity|].
    destruct st as [d c t s h m tr]; cbn in *. subst d.
    repeat split. by rewrite <- !app_assoc.
Qed.

Lemma handle_ipi_counts_without_device_witness :
  ipi_dev boot = None ∧
  ∃ st', handle_ipi boot = Some (tt, st') ∧ ipi_count st' = 1 ∧
         trace st' = [LoadIpiCount 0; StoreIpiCount 1; LoadIpiDev None].
Proof.
  split; [reflexivity|].
  destruct (handle_ipi_counts_without_device boot eq_refl)
    as [_ [st' (Hrun & Hc & _ & Ht)]].
  exists st'. repeat split; assumption.
Defined.

(** ** Invocations on several cores *)

(** One core running alone takes the four steps of [handle_ipi]. *)
Lemma run_cores_alone (st : kstate) :
  run_cores [0; 0; 0; 0]%nat [AtLoadCount] st =
  match handle_ipi st with
  | Some (_, st') => Some ([Returned], st')
  | None => None
  end.
Proof. destruct st as [d c t s h m tr]; destruct d; reflexivity. Qed.

Lemma u32_succ_ne (c : Z) : u32 (c + 1) ≠ u32 (c + 2).
Proof.
  unfold u32. change (2 ^ 32) with 4294967296. intros E.
  pose proof (Z.div_mod (c + 1) 4294967296 ltac:(lia)) as H1.
  pose proof (Z.div_mod (c + 2) 4294967296 ltac:(lia)) as H2.
  rewrite E in H1. lia.
Qed.

(** Invocations that do not overlap are all counted. *)
Lemma handle_ipi_times_count (n : nat) (st : kstate) :
  0 ≤ ipi_count st < 2 ^ 32 →
  ∃ st',
    handle_ipi_times n st = Some (tt, st') ∧
    ipi_count st' = (ipi_count st + Z.of_nat n) mod 2 ^ 32.
Proof.
  revert st. induction n as [|n IH]; intros st Hc.
  - exists st. split; [reflexivity|].
    rewrite Z.add_0_r, Z.mod_small; [reflexivity | assumption].
  - assert (∃ st1, handle_ipi st = Some (tt, st1) ∧
                   ipi_count st1 = u32 (ipi_count st + 1))
      as (st1 & Hrun & Hcount).
    { rewrite handle_ipi_run. eexists. split; [reflexivity|].
      destruct st as [d c t s h m tr]; destruct d; reflexivity. }
    destruct (IH st1) as (st' & Hrun' & Hcount').
    { rewrite Hcount. apply u32_range. }
    exists st'. split.
    + cbn [handle_ipi_times]. unfold bind at 1. by rewrite Hrun.
    + rewrite Hcount', Hcount. apply u32_succ_plus.
Qed.

(** C3: two invocations on two cores that both read the counter before
    either stores it leave the counter advanced by one, not by two. *)
Theorem handle_ipi_lost_update (st : kstate) :
  ∃ st',
    run_cores [0; 1; 0; 1; 0; 1; 0; 1]%nat [AtLoadCount; AtLoadCount] st
      = Some ([Returned; Returned], st') ∧
    ipi_count st' = u32 (ipi_count st + 1) ∧
    ipi_count st' ≠ u32 (ipi_count st + 2).
Proof.
  destruct st as [d c t s h m tr]; destruct d;
    (eexists; split; [reflexivity|]; split; [reflexivity|]; apply u32_succ_ne).
Qed.

(** ** Decimal text *)

Lemma nb_digits_double (d : Decimal.uint) :
  (Decimal.nb_digits (Decimal.Little.double d) ≤ S (Decimal.nb_digits d))%nat ∧
  (Decimal.nb_digits (Decimal.Little.succ_double d) ≤ S (Decimal.nb_digits d))%nat.
Proof.
  induction d as [|d [IH1 IH2]|d [IH1 IH2]|d [IH1 IH2]|d [IH1 IH2]|d [IH1 IH2]
                  |d [IH1 IH2]|d [IH1 IH2]|d [IH1 IH2]|d [IH1 IH2]|d [IH1 IH2]];
    cbn [Decimal.Little.double Decimal.Little.succ_double Decimal.nb_digits]; lia.
Qed.

Lemma nb_digits_to_little_uint (p : positive) (n : nat) :
  Z.pos p < 2 ^ Z.of_nat n → (Decimal.nb_digits (Pos.to_little_uint p) ≤ n)%nat.
Proof.
  revert n. induction p as [p IH|p IH|]; intros n Hp.
  - destruct n as [|n]; [cbn in Hp; lia|].
    rewrite Nat2Z.inj_succ, Z.pow_succ_r in Hp by lia.
    cbn [Pos.to_little_uint].
    pose proof (proj2 (nb_digits_double (Pos.to_little_uint p))).
    specialize (IH n ltac:(lia)). lia.
  - destruct n as [|n]; [cbn in Hp; lia|].
    rewrite Nat2Z.inj_succ, Z.pow_succ_r in Hp by lia.
    cbn [Pos.to_little_uint].
    pose proof (proj1 (nb_digits_double (Pos.to_little_uint p))).
    specialize (IH n ltac:(lia)). lia.
  - destruct n as [|n]; [cbn in Hp; lia|]. cbn. lia.
Qed.

Lemma length_string_of_uint (d : Decimal.uint) :
  String.length (NilEmpty.string_of_uint d) = Decimal.nb_digits d.
Proof. induction d; cbn; congruence. Qed.

Lemma length_decimal (z : Z) (n : nat) :
  - 2 ^ Z.of_nat n < z < 2 ^ Z.of_nat n → (String.length (decimal z) ≤ S (S n))%nat.
Proof.
  intros Hz. unfold decimal. destruct z as [|p|p].
  - cbn. lia.
  - cbn [Z.to_int NilZero.string_of_int]. unfold NilZero.string_of_uint.
    pose proof (nb_digits_to_little_uint p n ltac:(lia)) as Hn.
    unfold Pos.to_uint. rewrite <- nb_digits_rev in Hn.
    destruct (Decimal.rev (Pos.to_little_uint p)) eqn:E;
      first [ cbn; lia | rewrite length_string_of_uint; lia ].
  - cbn [Z.to_int NilZero.string_of_int String.length]. unfold NilZero.string_of_uint.
    pose proof (nb_digits_to_little_uint p n ltac:(lia)) as Hn.
    unfold Pos.to_uint. rewrite <- nb_digits_rev in Hn.
    destruct (Decimal.rev (Pos.to_little_uint p)) eqn:E;
      first [ cbn; lia | rewrite length_string_of_uint; lia ].
Qed.

Lemma substring_all (s : string) (n : nat) :
  (String.length s ≤ n)%nat → substring 0 n s = s.
Proof.
  revert n. induction s as [|a s IH]; intros n Hn.
  - by destruct n.
  - destruct n as [|n]; cbn in Hn; [lia|]. cbn. f_equal. apply IH. lia.
Qed.

(** ** The attribute *)

Lemma count_show_run (st : kstate) :
  count_show st =
  Some (snprintf_d PAGE_SIZE (ipi_count st), log (LoadIpiCount (ipi_count st)) st).
Proof. reflexivity. Qed.

Lemma int_of_u32_small (c : Z) : 0 ≤ c < 2 ^ 31 → int_of_u32 c = c.
Proof.
  intros Hc. unfold int_of_u32, u32. rewrite Z.mod_small by lia.
  destruct (Z.ltb_spec c (2 ^ 31)); lia.
Qed.

Lemma int_of_u32_large (c : Z) : 2 ^ 31 ≤ c < 2 ^ 32 → int_of_u32 c = c - 2 ^ 32.
Proof.
  intros Hc. unfold int_of_u32, u32. rewrite Z.mod_small by lia.
  destruct (Z.ltb_spec c (2 ^ 31)); lia.
Qed.

Lemma decimal_negative (z : Z) :
  z < 0 → ∃ s, decimal z = String "-" s.
Proof.
  destruct z as [|p|p]; [lia | lia | intros _].
  unfold decimal. cbn [Z.to_int NilZero.string_of_int]. eauto.
Qed.

Lemma int_of_u32_bounds (z : Z) : - 2 ^ 31 ≤ int_of_u32 z < 2 ^ 31.
Proof.
  unfold int_of_u32. pose proof (u32_range z) as Hz. cbv zeta.
  destruct (Z.ltb_spec (u32 z) (2 ^ 31)); lia.
Qed.

(** The page is never too small: the whole text is written. *)
Lemma count_show_text (st : kstate) :
  count_show st =
  Some ((decimal (int_of_u32 (ipi_count st)),
         Z.of_nat (String.length (decimal (int_of_u32 (ipi_count st))))),
        log (LoadIpiCount (ipi_count st)) st).
Proof.
  rewrite count_show_run. unfold snprintf_d. cbv zeta.
  rewrite substring_all; [reflexivity|].
  pose proof (int_of_u32_bounds (ipi_count st)) as Hb.
  pose proof (length_decimal (int_of_u32 (ipi_count st)) 32 ltac:(lia)) as Hl.
  change (Z.to_nat (PAGE_SIZE - 1)) with 4095%nat. lia.
Qed.

(** Below 2^31 the text is the decimal text of the counter. *)
Lemma count_show_below_2147483648 (st : kstate) :
  0 ≤ ipi_count st < 2 ^ 31 →
  ∃ n st', count_show st = Some ((decimal (ipi_count st), n), st').
Proof.
  intros Hc. rewrite count_show_text, int_of_u32_small by assumption. eauto.
Qed.

(** From 2^31 on, the text written by [count_show] is that of a negative
    number. *)
Lemma count_show_minus_sign (st : kstate) :
  2 ^ 31 ≤ ipi_count st < 2 ^ 32 →
  ∃ s n st', count_show st = Some ((String "-" s, n), st').
Proof.
  intros Hc. rewrite count_show_run. unfold snprintf_d.
  destruct (decimal_negative (int_of_u32 (ipi_count st))) as [s Hs].
  { rewrite int_of_u32_large by assumption. lia. }
  rewrite Hs.
  change (Z.to_nat (PAGE_SIZE - 1)) with (S (Z.to_nat (PAGE_SIZE - 2))).
  cbn [substring]. eauto.
Qed.

(** C2: with the counter at 2^31, whose decimal text is "2147483648",
    [count_show] writes "-2147483648" and returns 11. *)
Theorem count_show_at_2147483648 :
  decimal 2147483648 = "2147483648"%string ∧
  ∃ st',
    count_show (set_ipi_count 2147483648 boot) = Some (("-2147483648"%string, 11), st').
Proof.
  split; [reflexivity|]. rewrite count_show_run. eexists.
  vm_compute. reflexivity.
Qed.

(** ** Running the driver functions *)

Lemma bind_run {A B} (m : K A) (f : A → K B) (st st1 : kstate) (a : A) :
  m st = Some (a, st1) → bind m f st = f a st1.
Proof. intros H. unfold bind. by rewrite H. Qed.

Tactic Notation "kstep" tactic3(tac) := erewrite bind_run by tac; cbv beta.
Ltac kprim := kstep reflexivity.

Ltac kproj :=
  cbn [ipi_dev ipi_count ipi_types sysfs devres drvdata trace
       log set_ipi_dev set_ipi_count set_ipi_types set_sysfs set_devres set_drvdata].

Ltac unfold_driver :=
  unfold driver_probe, driver_remove, devres_release_all,
    user_sgi_probe, user_sgi_remove, release_after_attribute_count,
    release_after_ipi, get_ipi_number, allocate_device_data,
    devm_kzalloc, platform_set_drvdata, platform_get_drvdata,
    read_ipi_number, write_ipi_number, set_ipi_handler, clear_ipi_handler,
    device_create_file, device_remove_file, sysfs_notify, printk,
    smp_store_release_ipi_dev, smp_store_release_ipi_count,
    smp_load_acquire_ipi_dev, read_ipi_count, smp_load_acquire_ipi_count, emit, modify, get, ret.

Lemma allocate_device_data_ok (o : oracle) (pdev : platform_device) (st : kstate) :
  kzalloc_ok o = true →
  allocate_device_data o pdev st = Some (0, allocated pdev st).
Proof. intros Ho. unfold allocate_device_data, devm_kzalloc. by rewrite Ho. Qed.

Lemma get_ipi_number_ok (pdev : platform_device) (st : kstate)
    (p : data_ptr) (x : user_sgi_data) (c : Z) (cs : list Z) :
  of_node pdev !! "ipi_number"%string = Some (c :: cs) →
  devres st !! p = Some x →
  get_ipi_number pdev (Some p) st =
  Some (0, set_devres (<[p := {| ipi_number := u32 c |}]> (devres st)) st).
Proof.
  intros Hnode Hp. unfold get_ipi_number, of_property_read_u32. rewrite Hnode.
  unfold bind, write_ipi_number. by rewrite Hp.
Qed.

Lemma get_ipi_number_missing (pdev : platform_device) (st : kstate)
    (data : option data_ptr) :
  of_node pdev !! "ipi_number"%string = None →
  get_ipi_number pdev data st = Some (- EINVAL, st).
Proof.
  intros Hnode. unfold get_ipi_number, of_property_read_u32. by rewrite Hnode.
Qed.

Lemma read_ipi_number_run (st : kstate) (p : data_ptr) (x : user_sgi_data) :
  devres st !! p = Some x →
  read_ipi_number (Some p) st = Some (ipi_number x, st).
Proof. intros Hp. unfold read_ipi_number. by rewrite Hp. Qed.

Lemma set_ipi_handler_free (n : Z) (desc : string) (st : kstate) :
  ipi_types st !! n = None →
  set_ipi_handler n desc st =
  Some (0, log (SetIpiHandler n 0) (set_ipi_types (<[n := desc]> (ipi_types st)) st)).
Proof. intros Hn. unfold set_ipi_handler, bind, get. by rewrite Hn. Qed.

Lemma set_ipi_handler_taken (n : Z) (desc : string) (st : kstate) :
  is_Some (ipi_types st !! n) →
  set_ipi_handler n desc st = Some (-1, log (SetIpiHandler n (-1)) st).
Proof. intros [v Hn]. unfold set_ipi_handler, bind, get. by rewrite Hn. Qed.

Lemma device_create_file_fail (o : oracle) (d : dev_ptr) (st : kstate) :
  create_result o d st ≠ 0 →
  device_create_file o d dev_attr_count st =
  Some (create_result o d st,
        log (DeviceCreateFile d dev_attr_count (create_result o d st)) st).
Proof.
  unfold create_result, device_create_file, bind, get.
  case_bool_decide; [reflexivity|]. intros Hne.
  destruct (Z.eqb_spec (create_file_err o) 0); [contradiction | reflexivity].
Qed.

Lemma device_create_file_ok (o : oracle) (d : dev_ptr) (st : kstate) :
  create_result o d st = 0 →
  device_create_file o d dev_attr_count st =
  Some (0, log (DeviceCreateFile d dev_attr_count 0)
             (set_sysfs ({[ (d, dev_attr_count) ]} ∪ sysfs st) st)).
Proof.
  unfold create_result, device_create_file, bind, get.
  case_bool_decide; [discriminate|]. intros ->. reflexivity.
Qed.

Lemma release_after_ipi_run (pdev : platform_device) (result : Z) (st : kstate)
    (p : data_ptr) (x : user_sgi_data) :
  drvdata st !! dev pdev = Some p →
  devres st !! p = Some x →
  release_after_ipi pdev result st =
  Some (result, released_ipi (int_of_u32 (ipi_number x)) st).
Proof.
  intros Hd Hp. unfold release_after_ipi.
  kprim. unfold platform_get_drvdata. kstep (kproj; rewrite Hd; reflexivity).
  kstep (apply read_ipi_number_run; kproj; exact Hp).
  kprim. reflexivity.
Qed.

Lemma release_after_attribute_count_run (pdev : platform_device) (result : Z)
    (st : kstate) (p : data_ptr) (x : user_sgi_data) :
  drvdata st !! dev pdev = Some p →
  devres st !! p = Some x →
  release_after_attribute_count pdev result st =
  Some (result,
        released_ipi (int_of_u32 (ipi_number x))
          (log (DeviceRemoveFile (dev pdev) dev_attr_count)
             (set_sysfs (sysfs st ∖ {[ (dev pdev, dev_attr_count) ]}) st))).
Proof.
  intros Hd Hp. unfold release_after_attribute_count. kprim.
  by erewrite release_after_ipi_run.
Qed.

(** ** Probe *)

Lemma published_drvdata (pdev : platform_device) (c : Z) (st : kstate) :
  drvdata (published pdev c st) !! dev pdev = Some (dev pdev).
Proof. unfold published, allocated. kproj. apply lookup_insert_eq. Qed.

Lemma published_devres (pdev : platform_device) (c : Z) (st : kstate) :
  devres (published pdev c st) !! dev pdev = Some {| ipi_number := u32 c |}.
Proof. unfold published, allocated. kproj. apply lookup_insert_eq. Qed.

Lemma published_ipi_types (pdev : platform_device) (c : Z) (st : kstate) :
  ipi_types (published pdev c st) = ipi_types st.
Proof. reflexivity. Qed.

Lemma published_sysfs (pdev : platform_device) (c : Z) (st : kstate) :
  sysfs (published pdev c st) = sysfs st.
Proof. reflexivity. Qed.

Lemma published_trace (pdev : platform_device) (c : Z) (st : kstate) :
  trace (published pdev c st) =
  trace st ++ [Printk ("probing user sgi" +:+ nl);
               DevmKzalloc (dev pdev) true;
               StoreIpiDev (Some (dev pdev))].
Proof. unfold published, allocated. kproj. by rewrite <- !app_assoc. Qed.

(** Runs probe up to the publication of the device reference. *)
Ltac probe_publish Ho Hnode :=
  unfold user_sgi_probe;
  kprim;
  kstep (apply allocate_device_data_ok; exact Ho);
  cbn [Z.eqb negb];
  unfold platform_get_drvdata at 1;
  kstep (unfold allocated; kproj; rewrite lookup_insert_eq; reflexivity);
  kstep (eapply get_ipi_number_ok;
         [exact Hnode | unfold allocated; kproj; apply lookup_insert_eq]);
  cbn [Z.ltb Z.compare];
  kprim;
  lazymatch type of Hnode with
  | of_node ?pdev !! _ = Some (?c :: _) =>
      lazymatch goal with
      | |- bind _ _ ?s = _ =>
          lazymatch s with
          | context [log (Printk _) ?st0] => change s with (published pdev c st0)
          end
      end
  end;
  kstep (apply read_ipi_number_run; apply published_devres);
  cbn [ipi_number]; rewrite int_of_u32_u32.

(** A missing [ipi_number] property: probe fails after the allocation,
    before anything is published or registered. *)
Lemma probe_config_error (o : oracle) (pdev : platform_device) (st : kstate) :
  kzalloc_ok o = true →
  of_node pdev !! "ipi_number"%string = None →
  user_sgi_probe o pdev st =
  Some (- EINVAL, allocated pdev (log (Printk ("probing user sgi" +:+ nl)) st)).
Proof.
  intros Ho Hnode. unfold user_sgi_probe.
  kprim. kstep (apply allocate_device_data_ok; exact Ho).
  cbn [Z.eqb negb]. unfold platform_get_drvdata at 1. kprim.
  kstep (apply get_ipi_number_missing; exact Hnode).
  reflexivity.
Qed.

(** The IPI already has a handler: probe returns -EBUSY and leaves the
    reference it has just published in place. *)
Lemma probe_busy (o : oracle) (pdev : platform_device) (st : kstate)
    (c : Z) (cs : list Z) :
  kzalloc_ok o = true →
  of_node pdev !! "ipi_number"%string = Some (c :: cs) →
  is_Some (ipi_types st !! int_of_u32 c) →
  user_sgi_probe o pdev st =
  Some (- EBUSY, log (SetIpiHandler (int_of_u32 c) (-1)) (published pdev c st)).
Proof.
  intros Ho Hnode Htaken. probe_publish Ho Hnode.
  kstep (apply set_ipi_handler_taken; rewrite published_ipi_types; exact Htaken).
  reflexivity.
Qed.

Lemma probe_create_failed (o : oracle) (pdev : platform_device) (st : kstate)
    (c : Z) (cs : list Z) :
  kzalloc_ok o = true →
  of_node pdev !! "ipi_number"%string = Some (c :: cs) →
  ipi_types st !! int_of_u32 c = None →
  create_result o (dev pdev) st ≠ 0 →
  user_sgi_probe o pdev st =
  Some (create_result o (dev pdev) st,
        released_ipi (int_of_u32 c)
          (log (DeviceCreateFile (dev pdev) dev_attr_count (create_result o (dev pdev) st))
             (registered pdev c st))).
Proof.
  intros Ho Hnode Hfree Hfail. probe_publish Ho Hnode.
  kstep (apply set_ipi_handler_free; rewrite published_ipi_types; exact Hfree).
  cbn [Z.eqb negb].
  fold (registered pdev c st).
  kstep (apply device_create_file_fail; exact Hfail).
  change (create_result o (dev pdev) (registered pdev c st))
    with (create_result o (dev pdev) st).
  destruct (Z.eqb_spec (create_result o (dev pdev) st) 0) as [E|_]; [contradiction|].
  cbn [negb].
  rewrite (release_after_ipi_run pdev _ _ (dev pdev) {| ipi_number := u32 c |}).
  - cbn [ipi_number]. by rewrite int_of_u32_u32.
  - apply published_drvdata.
  - apply published_devres.
Qed.

Lemma probe_success (o : oracle) (pdev : platform_device) (st : kstate)
    (c : Z) (cs : list Z) :
  kzalloc_ok o = true →
  of_node pdev !! "ipi_number"%string = Some (c :: cs) →
  ipi_types st !! int_of_u32 c = None →
  create_result o (dev pdev) st = 0 →
  user_sgi_probe o pdev st = Some (0, probed pdev c st).
Proof.
  intros Ho Hnode Hfree Hok. probe_publish Ho Hnode.
  kstep (apply set_ipi_handler_free; rewrite published_ipi_types; exact Hfree).
  cbn [Z.eqb negb].
  fold (registered pdev c st).
  kstep (apply device_create_file_ok; exact Hok).
  cbn [Z.eqb negb].
  kstep (apply read_ipi_number_run; apply published_devres).
  cbn [ipi_number]. rewrite int_of_u32_u32.
  kprim. reflexivity.
Qed.

Lemma probed_active (pdev : platform_device) (st : kstate) (c : Z) (cs : list Z) :
  of_node pdev !! "ipi_number"%string = Some (c :: cs) →
  active pdev (probed pdev c st).
Proof.
  intros Hnode. split; [reflexivity|].
  exists (dev pdev), {| ipi_number := u32 c |}. repeat split.
  - apply published_drvdata.
  - apply published_devres.
  - unfold of_property_read_u32. by rewrite Hnode.
  - cbn [ipi_number]. rewrite int_of_u32_u32.
    unfold probed, registered. kproj. rewrite lookup_insert_eq. eauto.
  - unfold probed. kproj. apply elem_of_union_l. by apply elem_of_singleton.
Qed.

(** C6: when the creation of the attribute fails, probe returns the error
    of [device_create_file]; before it returns it stores NULL in the
    device reference and clears the handler it had registered. *)
Theorem probe_attribute_failure_rolls_back
    (o : oracle) (pdev : platform_device) (st : kstate) (c : Z) (cs : list Z) :
  kzalloc_ok o = true →
  of_node pdev !! "ipi_number"%string = Some (c :: cs) →
  ipi_types st !! int_of_u32 c = None →
  create_result o (dev pdev) st ≠ 0 →
  ∃ r st',
    user_sgi_probe o pdev st = Some (r, st') ∧
    r = create_result o (dev pdev) st ∧
    ipi_dev st' = None ∧
    ipi_types st' !! int_of_u32 c = None ∧
    sysfs st' = sysfs st ∧
    trace st' =
      trace st ++
      [Printk ("probing user sgi" +:+ nl);
       DevmKzalloc (dev pdev) true;
       StoreIpiDev (Some (dev pdev));
       SetIpiHandler (int_of_u32 c) 0;
       DeviceCreateFile (dev pdev) "count" r;
       StoreIpiDev None;
       ClearIpiHandler (int_of_u32 c)].
Proof.
  intros Ho Hnode Hfree Hfail.
  eexists _, _. split; [by eapply probe_create_failed|].
  split; [reflexivity|]. split; [reflexivity|].
  split; [unfold released_ipi; kproj; apply lookup_delete_eq|].
  split; [reflexivity|].
  unfold released_ipi, registered. kproj. rewrite published_trace.
  by rewrite <- !app_assoc.
Qed.

Lemma probe_attribute_failure_rolls_back_witness :
  ∃ st',
    user_sgi_probe no_sysfs pdevA boot = Some (-5, st') ∧
    ipi_dev st' = None ∧
    ipi_types st' !! 8 = None.
Proof.
  destruct (probe_attribute_failure_rolls_back no_sysfs pdevA boot 8 [])
    as (r & st' & Hrun & Hr & Hd & Ht & _).
  - reflexivity.
  - reflexivity.
  - reflexivity.
  - vm_compute. discriminate.
  - exists st'. subst r. repeat split; assumption.
Defined.

(** ** Probe failing on the allocation *)

(** C10: when the allocation of the per-instance state fails, probe
    returns -ENOMEM at once: the device reference, the dispatch table and
    the attribute files are as before, and nothing but the message and the
    failed allocation has happened. *)
Theorem probe_allocation_failure (o : oracle) (pdev : platform_device) (st : kstate) :
  kzalloc_ok o = false →
  ∃ st',
    user_sgi_probe o pdev st = Some (- ENOMEM, st') ∧
    ipi_dev st' = ipi_dev st ∧
    ipi_types st' = ipi_types st ∧
    sysfs st' = sysfs st ∧
    trace st' =
      trace st ++ [Printk ("probing user sgi" +:+ nl); DevmKzalloc (dev pdev) false].
Proof.
  intros Ho. unfold_driver. rewrite Ho.
  destruct st as [d c t s h m tr]. cbn.
  eexists. split; [reflexivity|]. cbn.
  repeat split. by rewrite <- app_assoc.
Qed.

Lemma probe_allocation_failure_witness :
  kzalloc_ok no_memory = false ∧
  ∃ st', user_sgi_probe no_memory pdevA boot = Some (-12, st') ∧
         ipi_dev st' = None ∧ ipi_types st' = ∅ ∧ sysfs st' = ∅.
Proof.
  split; [reflexivity|].
  destruct (probe_allocation_failure no_memory pdevA boot eq_refl)
    as (st' & Hrun & Hd & Ht & Hs & _).
  exists st'. repeat split; assumption.
Defined.

(** ** Remove *)

Lemma user_sgi_remove_run (pdev : platform_device) (st : kstate)
    (p : data_ptr) (x : user_sgi_data) :
  drvdata st !! dev pdev = Some p →
  devres st !! p = Some x →
  user_sgi_remove pdev st = Some (0, removed pdev (int_of_u32 (ipi_number x)) st).
Proof.
  intros Hd Hp. unfold user_sgi_remove. kprim.
  by erewrite release_after_attribute_count_run.
Qed.

Lemma driver_remove_run (pdev : platform_device) (st : kstate)
    (p : data_ptr) (x : user_sgi_data) :
  drvdata st !! dev pdev = Some p →
  devres st !! p = Some x →
  driver_remove pdev st =
  Some (0, devres_released (dev pdev) (removed pdev (int_of_u32 (ipi_number x)) st)).
Proof.
  intros Hd Hp. unfold driver_remove.
  kstep (eapply user_sgi_remove_run; [exact Hd | exact Hp]).
  reflexivity.
Qed.

Lemma removed_trace (pdev : platform_device) (n : Z) (st : kstate) :
  trace (removed pdev n st) =
  trace st ++
  [Printk ("removing user sgi" +:+ nl);
   DeviceRemoveFile (dev pdev) "count";
   StoreIpiDev None;
   ClearIpiHandler n].
Proof. unfold removed, released_ipi. kproj. by rewrite <- !app_assoc. Qed.

(** C4, as amended: [user_sgi_remove] makes its teardown calls in exactly
    this order, each with its effect on the state: it destroys the
    attribute (the reference and the handler are still in place), then
    stores NULL in the device reference (the handler is still
    registered), then clears the handler.  It does not release the
    per-instance state: the allocation and the driver data of the device
    are as before when it returns 0. *)
Theorem remove_teardown_order (pdev : platform_device) (st : kstate)
    (p : data_ptr) (x : user_sgi_data) :
  drvdata st !! dev pdev = Some p →
  devres st !! p = Some x →
  ∃ s1 s2 s3 s4,
    printk ("removing user sgi" +:+ nl) st = Some (tt, s1) ∧
    device_remove_file (dev pdev) dev_attr_count s1 = Some (tt, s2) ∧
    smp_store_release_ipi_dev None s2 = Some (tt, s3) ∧
    clear_ipi_handler (int_of_u32 (ipi_number x)) s3 = Some (tt, s4) ∧
    release_after_ipi pdev 0 s2 = Some (0, s4) ∧
    release_after_attribute_count pdev 0 s1 = Some (0, s4) ∧
    user_sgi_remove pdev st = Some (0, s4) ∧
    sysfs s2 = sysfs st ∖ {[ (dev pdev, "count"%string) ]} ∧
    ipi_dev s2 = ipi_dev st ∧
    ipi_types s2 = ipi_types st ∧
    sysfs s3 = sysfs st ∖ {[ (dev pdev, "count"%string) ]} ∧
    ipi_dev s3 = None ∧
    ipi_types s3 = ipi_types st ∧
    sysfs s4 = sysfs st ∖ {[ (dev pdev, "count"%string) ]} ∧
    ipi_dev s4 = None ∧
    ipi_types s4 = delete (int_of_u32 (ipi_number x)) (ipi_types st) ∧
    devres s4 = devres st ∧
    drvdata s4 = drvdata st ∧
    ipi_count s4 = ipi_count st ∧
    trace s4 =
      trace st ++
      [Printk ("removing user sgi" +:+ nl);
       DeviceRemoveFile (dev pdev) "count";
       StoreIpiDev None;
       ClearIpiHandler (int_of_u32 (ipi_number x))].
Proof.
  intros Hd Hp.
  set (s1 := log (Printk ("removing user sgi" +:+ nl)) st).
  set (s2 := log (DeviceRemoveFile (dev pdev) dev_attr_count)
               (set_sysfs (sysfs s1 ∖ {[ (dev pdev, dev_attr_count) ]}) s1)).
  exists s1, s2, (log (StoreIpiDev None) (set_ipi_dev None s2)),
    (released_ipi (int_of_u32 (ipi_number x)) s2).
  split; [reflexivity|]. split; [reflexivity|].
  split; [reflexivity|]. split; [reflexivity|].
  split; [by apply (release_after_ipi_run pdev 0 s2 p x)|].
  split; [by apply (release_after_attribute_count_run pdev 0 s1 p x)|].
  split; [by apply (user_sgi_remove_run pdev st p x)|].
  repeat (split; [reflexivity|]).
  apply removed_trace.
Qed.

Lemma remove_teardown_order_witness :
  ∃ s2 s3 s4,
    ((1, "count"%string) ∉ sysfs s2) ∧
    ipi_dev s2 = Some 1 ∧
    ipi_dev s3 = None ∧
    ipi_types s3 !! 8 = Some "user sgi"%string ∧
    user_sgi_remove pdevA activeA = Some (0, s4) ∧
    ipi_types s4 !! 8 = None.
Proof.
  destruct (remove_teardown_order pdevA activeA 1 {| ipi_number := 8 |})
    as (s1 & s2 & s3 & s4 & _ & _ & _ & _ & _ & _ & Hrun &
        Hs2 & Hd2 & _ & _ & Hd3 & Ht3 & _ & _ & Ht4 & _).
  - reflexivity.
  - reflexivity.
  - exists s2, s3, s4.
    split; [rewrite Hs2; apply not_elem_of_difference; right; by apply elem_of_singleton|].
    split; [rewrite Hd2; reflexivity|].
    split; [exact Hd3|].
    split; [rewrite Ht3; reflexivity|].
    split; [exact Hrun|].
    rewrite Ht4. apply lookup_delete_eq.
Defined.

(** C4, as stated, fails on the fourth step: when [user_sgi_remove] has
    returned for the active [pdevA], the per-instance state is still
    allocated and still the driver data of the device, and the calls made
    are the three teardown calls after the message, none of them a
    release. *)
Lemma remove_keeps_instance_state :
  ∃ st',
    user_sgi_remove pdevA activeA = Some (0, st') ∧
    devres st' !! dev pdevA = Some {| ipi_number := 8 |} ∧
    drvdata st' !! dev pdevA = Some (dev pdevA) ∧
    trace st' =
      trace activeA ++
      [Printk ("removing user sgi" +:+ nl);
       DeviceRemoveFile 1 "count";
       StoreIpiDev None;
       ClearIpiHandler 8].
Proof.
  eexists. split; [vm_compute; reflexivity|].
  split; [vm_compute; reflexivity|].
  split; [vm_compute; reflexivity|].
  vm_compute. reflexivity.
Qed.

(** C8: from the active state remove returns 0, never an error, and the
    fault-free run is total; afterwards the reference is NULL, the IPI has
    no handler, the attribute and the per-instance state are gone, and a
    following probe of the same device succeeds and is active again. *)
Theorem remove_always_succeeds (pdev : platform_device) (st : kstate) :
  active pdev st →
  ∃ n st1 st2 st3,
    user_sgi_remove pdev st = Some (0, st1) ∧
    driver_remove pdev st = Some (0, st2) ∧
    uninitialized pdev n st2 ∧
    driver_probe no_faults pdev st2 = Some (0, st3) ∧
    active pdev st3.
Proof.
  intros (Hdev & p & x & Hd & Hp & Hnode & Hreg & Hfile).
  assert (∃ c cs, of_node pdev !! "ipi_number"%string = Some (c :: cs) ∧
                  ipi_number x = u32 c) as (c & cs & Hc & Hx).
  { unfold of_property_read_u32 in Hnode.
    destruct (of_node pdev !! "ipi_number"%string) as [[|c cs]|];
      [discriminate Hnode | | discriminate Hnode].
    exists c, cs. split; [reflexivity | by injection Hnode]. }
  exists (int_of_u32 c).
  eexists _, _, _.
  split; [by eapply user_sgi_remove_run|].
  split; [by eapply driver_remove_run|].
  rewrite Hx, int_of_u32_u32.
  split; [|split].
  - unfold uninitialized, devres_released, removed, released_ipi. kproj.
    split; [reflexivity|]. split; [apply lookup_delete_eq|].
    split; [apply not_elem_of_difference; right; by apply elem_of_singleton|].
    split; apply lookup_delete_eq.
  - unfold driver_probe.
    kstep (eapply probe_success;
           [ reflexivity
           | exact Hc
           | unfold devres_released, removed, released_ipi; kproj;
             apply lookup_delete_eq
           | unfold create_result, devres_released, removed, released_ipi; kproj;
             rewrite bool_decide_eq_false_2
               by (apply not_elem_of_difference; right; by apply elem_of_singleton);
             reflexivity ]).
    reflexivity.
  - by eapply probed_active.
Qed.

Lemma remove_always_succeeds_witness :
  active pdevA activeA ∧
  ∃ st2 st3,
    driver_remove pdevA activeA = Some (0, st2) ∧
    ipi_dev st2 = None ∧
    driver_probe no_faults pdevA st2 = Some (0, st3).
Proof.
  assert (Hact : active pdevA activeA).
  { split; [reflexivity|]. exists 1, {| ipi_number := 8 |}.
    repeat split; try reflexivity.
    vm_compute. eauto. }
  split; [exact Hact|].
  destruct (remove_always_succeeds pdevA activeA Hact)
    as (n & st1 & st2 & st3 & _ & Hrm & (Hnull & _) & Hprobe & _).
  exists st2, st3. repeat split; assumption.
Defined.

(** ** A probe that finds the IPI taken *)

(** C1: [pdevA] is probed at boot and owns IPI 8; the probe of [pdevB] for
    the same IPI then fails with -EBUSY, and when it has returned the device
    reference still points to [pdevB], which has no attribute, while the
    handler of IPI 8 stays registered; the release of the managed state by
    the driver core does not change that. *)
Theorem probe_busy_keeps_reference :
  ∃ st1 st2 st3,
    user_sgi_probe no_faults pdevA boot = Some (0, st1) ∧
    user_sgi_probe no_faults pdevB st1 = Some (- EBUSY, st2) ∧
    ipi_dev st2 = Some (dev pdevB) ∧
    ((dev pdevB, dev_attr_count) ∉ sysfs st2) ∧
    ipi_types st2 !! 8 = Some "user sgi"%string ∧
    driver_probe no_faults pdevB st1 = Some (- EBUSY, st3) ∧
    ipi_dev st3 = Some (dev pdevB).
Proof.
  eexists _, _, _.
  split; [vm_compute; reflexivity|].
  split; [vm_compute; reflexivity|].
  split; [reflexivity|].
  split; [apply (bool_decide_unpack _); vm_compute; reflexivity|].
  split; [vm_compute; reflexivity|].
  split; [vm_compute; reflexivity|].
  reflexivity.
Qed.

(** * Further properties of the driver *)

(** ** Probe, path by path *)

Lemma get_ipi_number_fail (pdev : platform_device) (st : kstate)
    (data : option data_ptr) (r : Z) :
  of_property_read_u32 (of_node pdev) "ipi_number" = (r, None) →
  get_ipi_number pdev data st = Some (r, st) ∧ (r = - EINVAL ∨ r = - ENODATA).
Proof.
  unfold get_ipi_number. intros Hr. rewrite Hr. split; [reflexivity|].
  unfold of_property_read_u32 in Hr.
  destruct (of_node pdev !! "ipi_number"%string) as [[|c cs]|];
    inversion Hr; auto.
Qed.

Lemma probe_config_fail (o : oracle) (pdev : platform_device) (st : kstate) (r : Z) :
  kzalloc_ok o = true →
  of_property_read_u32 (of_node pdev) "ipi_number" = (r, None) →
  user_sgi_probe o pdev st =
    Some (r, allocated pdev (log (Printk ("probing user sgi" +:+ nl)) st)) ∧
  (r = - EINVAL ∨ r = - ENODATA).
Proof.
  intros Ho Hr.
  destruct (get_ipi_number_fail pdev
              (allocated pdev (log (Printk ("probing user sgi" +:+ nl)) st))
              (Some (dev pdev)) r Hr) as [Hrun Hcases].
  split; [|exact Hcases].
  unfold user_sgi_probe.
  kprim. kstep (apply allocate_device_data_ok; exact Ho).
  cbn [Z.eqb negb]. unfold platform_get_drvdata at 1.
  kstep (unfold allocated; kproj; rewrite lookup_insert_eq; reflexivity).
  kstep (exact Hrun).
  destruct Hcases as [-> | ->]; reflexivity.
Qed.

Lemma probe_enomem (o : oracle) (pdev : platform_device) (st : kstate) :
  kzalloc_ok o = false →
  user_sgi_probe o pdev st =
  Some (- ENOMEM,
        log (DevmKzalloc (dev pdev) false) (log (Printk ("probing user sgi" +:+ nl)) st)).
Proof.
  intros Ho. unfold user_sgi_probe. kprim.
  unfold allocate_device_data, devm_kzalloc. rewrite Ho.
  kprim. reflexivity.
Qed.

(** X1: when the device tree node has no [ipi_number] property, or one
    without a value, probe returns the error of [of_property_read_u32]
    (-EINVAL or -ENODATA) right after the allocation: the device reference,
    the dispatch table, the attribute files and the counter are as before. *)
Theorem probe_without_ipi_number
    (o : oracle) (pdev : platform_device) (st : kstate) (r : Z) :
  kzalloc_ok o = true →
  of_property_read_u32 (of_node pdev) "ipi_number" = (r, None) →
  ∃ st',
    user_sgi_probe o pdev st = Some (r, st') ∧
    (r = - EINVAL ∨ r = - ENODATA) ∧
    ipi_dev st' = ipi_dev st ∧
    ipi_types st' = ipi_types st ∧
    sysfs st' = sysfs st ∧
    ipi_count st' = ipi_count st ∧
    trace st' =
      trace st ++ [Printk ("probing user sgi" +:+ nl); DevmKzalloc (dev pdev) true].
Proof.
  intros Ho Hr. destruct (probe_config_fail o pdev st r Ho Hr) as [Hrun Hcases].
  eexists. split; [exact Hrun|].
  split; [exact Hcases|]. unfold allocated. kproj.
  repeat split. by rewrite <- app_assoc.
Qed.

Lemma probe_without_ipi_number_witness :
  ∃ st',
    user_sgi_probe no_faults pdev_bare boot = Some (-22, st') ∧
    ipi_dev st' = None ∧ ipi_types st' = ∅ ∧ sysfs st' = ∅.
Proof.
  destruct (probe_without_ipi_number no_faults pdev_bare boot (-22))
    as (st' & Hrun & _ & Hd & Ht & Hs & _).
  - reflexivity.
  - reflexivity.
  - exists st'. repeat split; assumption.
Defined.

(** X2: when the allocation succeeds, the node names a free IPI and the
    attribute can be created, probe returns 0 and the instance is active.
    The reference is stored before the handler is registered and the
    attribute is created last; only the entry of this IPI and the file of
    this device are added, and the counter is not touched. *)
Theorem probe_success_order
    (o : oracle) (pdev : platform_device) (st : kstate) (c : Z) (cs : list Z) :
  kzalloc_ok o = true →
  of_node pdev !! "ipi_number"%string = Some (c :: cs) →
  ipi_types st !! int_of_u32 c = None →
  create_result o (dev pdev) st = 0 →
  ∃ st',
    user_sgi_probe o pdev st = Some (0, st') ∧
    active pdev st' ∧
    ipi_types st' = <[int_of_u32 c := "user sgi"%string]> (ipi_types st) ∧
    sysfs st' = {[ (dev pdev, "count"%string) ]} ∪ sysfs st ∧
    ipi_count st' = ipi_count st ∧
    trace st' =
      trace st ++
      [Printk ("probing user sgi" +:+ nl);
       DevmKzalloc (dev pdev) true;
       StoreIpiDev (Some (dev pdev));
       SetIpiHandler (int_of_u32 c) 0;
       DeviceCreateFile (dev pdev) "count" 0;
       Printk ("user sgi activated for IPI number " +:+ decimal (int_of_u32 c) +:+ nl)].
Proof.
  intros Ho Hnode Hfree Hok. exists (probed pdev c st).
  split; [by eapply probe_success|].
  split; [by eapply probed_active|].
  split; [reflexivity|]. split; [reflexivity|]. split; [reflexivity|].
  unfold probed, registered. kproj. rewrite published_trace.
  by rewrite <- !app_assoc.
Qed.

Lemma probe_success_order_witness :
  ∃ st',
    user_sgi_probe no_faults pdevA boot = Some (0, st') ∧
    active pdevA st' ∧
    ipi_types st' !! 8 = Some "user sgi"%string.
Proof.
  destruct (probe_success_order no_faults pdevA boot 8 [])
    as (st' & Hrun & Hact & Ht & _); try reflexivity.
  exists st'. split; [exact Hrun|]. split; [exact Hact|].
  rewrite Ht. reflexivity.
Defined.

(** X3: whenever the IPI named by the node already has a handler, probe
    returns -EBUSY having stored the device in the reference: the reference
    points to the device that failed to probe, while the dispatch table and
    the attribute files are unchanged. *)
Theorem probe_busy_publishes
    (o : oracle) (pdev : platform_device) (st : kstate) (c : Z) (cs : list Z) :
  kzalloc_ok o = true →
  of_node pdev !! "ipi_number"%string = Some (c :: cs) →
  is_Some (ipi_types st !! int_of_u32 c) →
  ∃ st',
    user_sgi_probe o pdev st = Some (- EBUSY, st') ∧
    ipi_dev st' = Some (dev pdev) ∧
    ipi_types st' = ipi_types st ∧
    sysfs st' = sysfs st ∧
    ipi_count st' = ipi_count st ∧
    trace st' =
      trace st ++
      [Printk ("probing user sgi" +:+ nl);
       DevmKzalloc (dev pdev) true;
       StoreIpiDev (Some (dev pdev));
       SetIpiHandler (int_of_u32 c) (-1)].
Proof.
  intros Ho Hnode Htaken.
  eexists. split; [by eapply probe_busy|].
  repeat (split; [reflexivity|]).
  kproj. rewrite published_trace. by rewrite <- !app_assoc.
Qed.

Lemma probe_busy_publishes_witness :
  ∃ st',
    user_sgi_probe no_faults pdevB activeA = Some (-16, st') ∧
    ipi_dev st' = Some 2 ∧
    sysfs st' = sysfs activeA.
Proof.
  destruct (probe_busy_publishes no_faults pdevB activeA 8 [])
    as (st' & Hrun & Hd & _ & Hs & _).
  - reflexivity.
  - reflexivity.
  - vm_compute. eauto.
  - exists st'. repeat split; assumption.
Defined.

Lemma released_registered_ipi_types
    (pdev : platform_device) (c : Z) (st : kstate) (e : event) :
  ipi_types st !! int_of_u32 c = None →
  ipi_types (released_ipi (int_of_u32 c) (log e (registered pdev c st))) = ipi_types st.
Proof.
  intros Hfree. unfold released_ipi, registered. kproj.
  rewrite published_ipi_types, delete_insert_eq. by apply delete_id.
Qed.

(** X4: probe never faults and never changes the counter, in any state
    and whatever the allocator and sysfs answer.  It either returns 0 with
    the instance active, or returns an error with the dispatch table and
    the attribute files exactly as it found them. *)
Theorem probe_outcomes (o : oracle) (pdev : platform_device) (st : kstate) :
  ∃ r st',
    user_sgi_probe o pdev st = Some (r, st') ∧
    ipi_count st' = ipi_count st ∧
    ((r = 0 ∧ active pdev st') ∨
     (r ≠ 0 ∧ ipi_types st' = ipi_types st ∧ sysfs st' = sysfs st)).
Proof.
  destruct (kzalloc_ok o) eqn:Ho.
  - destruct (of_node pdev !! "ipi_number"%string) as [[|c cs]|] eqn:Hnode.
    + destruct (probe_config_fail o pdev st (- ENODATA) Ho) as [Hrun _].
      { unfold of_property_read_u32. by rewrite Hnode. }
      eexists _, _. split; [exact Hrun|]. split; [reflexivity|].
      right. by repeat split.
    + destruct (ipi_types st !! int_of_u32 c) as [desc|] eqn:Hn.
      * eexists _, _. split; [by eapply probe_busy|]. split; [reflexivity|].
        right. by repeat split.
      * destruct (Z.eq_dec (create_result o (dev pdev) st) 0) as [Hok|Hfail].
        -- eexists _, _. split; [by eapply probe_success|]. split; [reflexivity|].
           left. split; [reflexivity|]. by eapply probed_active.
        -- eexists _, _. split; [by eapply probe_create_failed|].
           split; [reflexivity|]. right. split; [exact Hfail|].
           split; [by apply released_registered_ipi_types | reflexivity].
    + destruct (probe_config_fail o pdev st (- EINVAL) Ho) as [Hrun _].
      { unfold of_property_read_u32. by rewrite Hnode. }
      eexists _, _. split; [exact Hrun|]. split; [reflexivity|].
      right. by repeat split.
  - eexists _, _. split; [by apply probe_enomem|]. split; [reflexivity|].
    right. by repeat split.
Qed.

(** ** Probe and remove together *)

Lemma probed_drvdata (pdev : platform_device) (c : Z) (st : kstate) :
  drvdata (probed pdev c st) = <[dev pdev := dev pdev]> (drvdata st).
Proof. reflexivity. Qed.

Lemma probed_devres (pdev : platform_device) (c : Z) (st : kstate) :
  devres (probed pdev c st) =
  <[dev pdev := {| ipi_number := u32 c |}]>
    (<[dev pdev := {| ipi_number := 0 |}]> (devres st)).
Proof. reflexivity. Qed.

Lemma probed_ipi_types (pdev : platform_device) (c : Z) (st : kstate) :
  ipi_types (probed pdev c st) = <[int_of_u32 c := "user sgi"%string]> (ipi_types st).
Proof. reflexivity. Qed.

Lemma probed_sysfs (pdev : platform_device) (c : Z) (st : kstate) :
  sysfs (probed pdev c st) = {[ (dev pdev, dev_attr_count) ]} ∪ sysfs st.
Proof. reflexivity. Qed.

Lemma probed_ipi_dev (pdev : platform_device) (c : Z) (st : kstate) :
  ipi_dev (probed pdev c st) = Some (dev pdev).
Proof. reflexivity. Qed.

Lemma probed_ipi_count (pdev : platform_device) (c : Z) (st : kstate) :
  ipi_count (probed pdev c st) = ipi_count st.
Proof. reflexivity. Qed.

Lemma removed_fields (pdev : platform_device) (n : Z) (st : kstate) :
  ipi_dev (removed pdev n st) = None ∧
  ipi_count (removed pdev n st) = ipi_count st ∧
  ipi_types (removed pdev n st) = delete n (ipi_types st) ∧
  sysfs (removed pdev n st) = sysfs st ∖ {[ (dev pdev, dev_attr_count) ]} ∧
  devres (removed pdev n st) = devres st ∧
  drvdata (removed pdev n st) = drvdata st.
Proof. by repeat split. Qed.

Lemma devres_released_fields (d : dev_ptr) (st : kstate) :
  ipi_dev (devres_released d st) = ipi_dev st ∧
  ipi_count (devres_released d st) = ipi_count st ∧
  ipi_types (devres_released d st) = ipi_types st ∧
  sysfs (devres_released d st) = sysfs st ∧
  devres (devres_released d st) = delete d (devres st) ∧
  drvdata (devres_released d st) = delete d (drvdata st).
Proof. by repeat split. Qed.

Lemma create_result_absent (o : oracle) (d : dev_ptr) (st : kstate) :
  (d, dev_attr_count) ∉ sysfs st → create_result o d st = create_file_err o.
Proof. intros Hf. unfold create_result. by rewrite bool_decide_eq_false_2. Qed.

Lemma driver_probe_ok (o : oracle) (pdev : platform_device) (st st1 : kstate) :
  user_sgi_probe o pdev st = Some (0, st1) →
  driver_probe o pdev st = Some (0, st1).
Proof. intros Hrun. unfold driver_probe. kstep (exact Hrun). reflexivity. Qed.

Lemma driver_probe_error (o : oracle) (pdev : platform_device) (st st1 : kstate) (r : Z) :
  r ≠ 0 →
  user_sgi_probe o pdev st = Some (r, st1) →
  driver_probe o pdev st = Some (r, devres_released (dev pdev) st1).
Proof.
  intros Hr Hrun. unfold driver_probe. kstep (exact Hrun).
  destruct (Z.eqb_spec r 0) as [E|_]; [contradiction|]. reflexivity.
Qed.

Lemma sysfs_added_removed (f : dev_ptr * string) (s : gset (dev_ptr * string)) :
  f ∉ s → ({[ f ]} ∪ s) ∖ {[ f ]} = s.
Proof.
  intros Hf. rewrite difference_union_distr_l_L, difference_diag_L, (left_id_L ∅ (∪)).
  apply difference_disjoint_L. by apply disjoint_singleton_r.
Qed.

(** X5: probe followed by remove is a round trip.  From a state without
    the instance, a successful probe and the removal that follows return
    0 and leave the device reference, the counter, the dispatch table, the
    attribute files and the managed allocations exactly as they were. *)
Theorem probe_remove_round_trip
    (o : oracle) (pdev : platform_device) (st : kstate) (c : Z) (cs : list Z) :
  kzalloc_ok o = true →
  create_file_err o = 0 →
  of_node pdev !! "ipi_number"%string = Some (c :: cs) →
  uninitialized pdev (int_of_u32 c) st →
  ∃ st1 st2,
    driver_probe o pdev st = Some (0, st1) ∧
    driver_remove pdev st1 = Some (0, st2) ∧
    ipi_dev st2 = ipi_dev st ∧
    ipi_count st2 = ipi_count st ∧
    ipi_types st2 = ipi_types st ∧
    sysfs st2 = sysfs st ∧
    devres st2 = devres st ∧
    drvdata st2 = drvdata st.
Proof.
  intros Ho Hcreate Hnode (Hdev & Hfree & Hfile & Hdrv & Hres).
  exists (probed pdev c st),
    (devres_released (dev pdev) (removed pdev (int_of_u32 c) (probed pdev c st))).
  split.
  { apply driver_probe_ok. eapply probe_success; eauto.
    by rewrite create_result_absent. }
  split.
  { rewrite (driver_remove_run pdev _ (dev pdev) {| ipi_number := u32 c |}).
    - cbn [ipi_number]. by rewrite int_of_u32_u32.
    - apply published_drvdata.
    - apply published_devres. }
  destruct (devres_released_fields (dev pdev)
              (removed pdev (int_of_u32 c) (probed pdev c st)))
    as (-> & -> & -> & -> & -> & ->).
  destruct (removed_fields pdev (int_of_u32 c) (probed pdev c st))
    as (-> & -> & -> & -> & -> & ->).
  rewrite probed_ipi_count, probed_ipi_types, probed_sysfs, probed_devres,
    probed_drvdata.
  split; [by rewrite Hdev|]. split; [reflexivity|].
  split; [rewrite delete_insert_eq; by apply delete_id|].
  split; [by apply sysfs_added_removed|].
  split; [rewrite !delete_insert_eq; by apply delete_id|].
  rewrite delete_insert_eq. by apply delete_id.
Qed.

Lemma probe_remove_round_trip_witness :
  ∃ st1 st2,
    driver_probe no_faults pdevA boot = Some (0, st1) ∧
    driver_remove pdevA st1 = Some (0, st2) ∧
    ipi_dev st2 = None ∧ ipi_types st2 = ∅ ∧ sysfs st2 = ∅ ∧
    devres st2 = ∅ ∧ drvdata st2 = ∅.
Proof.
  destruct (probe_remove_round_trip no_faults pdevA boot 8 [])
    as (st1 & st2 & Hp & Hr & Hd & _ & Ht & Hs & Hres & Hdrv); try reflexivity.
  - repeat split; try reflexivity. apply not_elem_of_empty.
  - exists st1, st2. repeat split; assumption.
Defined.

(** X6: the rollback of a probe that fails on the attribute is complete.
    When sysfs refuses the file, probe returns that error; once the driver
    core has released the managed state nothing of the instance is left,
    and a second probe of the same device, with sysfs working, returns 0
    and is active. *)
Theorem probe_again_after_attribute_failure
    (o : oracle) (pdev : platform_device) (st : kstate) (c : Z) (cs : list Z) :
  kzalloc_ok o = true →
  create_file_err o ≠ 0 →
  of_node pdev !! "ipi_number"%string = Some (c :: cs) →
  uninitialized pdev (int_of_u32 c) st →
  ∃ st1 st2,
    driver_probe o pdev st = Some (create_file_err o, st1) ∧
    uninitialized pdev (int_of_u32 c) st1 ∧
    driver_probe no_faults pdev st1 = Some (0, st2) ∧
    active pdev st2.
Proof.
  intros Ho Hcreate Hnode (Hdev & Hfree & Hfile & Hdrv & Hres).
  assert (Hres1 : create_result o (dev pdev) st = create_file_err o)
    by by apply create_result_absent.
  eexists _, _. split.
  { rewrite <- Hres1 at 1. apply driver_probe_error; [by rewrite Hres1|].
    eapply probe_create_failed; eauto. by rewrite Hres1. }
  assert (Hun : uninitialized pdev (int_of_u32 c)
                  (devres_released (dev pdev)
                     (released_ipi (int_of_u32 c)
                        (log (DeviceCreateFile (dev pdev) dev_attr_count
                                (create_result o (dev pdev) st))
                           (registered pdev c st))))).
  { unfold uninitialized, devres_released, released_ipi, registered. kproj.
    split; [reflexivity|]. split; [apply lookup_delete_eq|].
    split; [exact Hfile|]. split; apply lookup_delete_eq. }
  split; [exact Hun|].
  destruct Hun as (_ & Hfree1 & Hfile1 & _).
  split.
  - apply driver_probe_ok. eapply probe_success; eauto.
    by rewrite create_result_absent.
  - by eapply probed_active.
Qed.

Lemma probe_again_after_attribute_failure_witness :
  ∃ st1 st2,
    driver_probe no_sysfs pdevA boot = Some (-5, st1) ∧
    driver_probe no_faults pdevA st1 = Some (0, st2) ∧
    active pdevA st2.
Proof.
  destruct (probe_again_after_attribute_failure no_sysfs pdevA boot 8 [])
    as (st1 & st2 & Hp & _ & Hq & Hact); try reflexivity.
  - vm_compute. discriminate.
  - repeat split; try reflexivity. apply not_elem_of_empty.
  - exists st1, st2. split; [exact Hp | split; [exact Hq | exact Hact]].
Defined.

(** ** Invocations of the handler, one after the other *)

Lemma notifications_app (d : dev_ptr) (name : string) (t1 t2 : list event) :
  notifications d name (t1 ++ t2) =
  (notifications d name t1 + notifications d name t2)%nat.
Proof.
  induction t1 as [|e t1 IH]; [reflexivity|].
  destruct e; cbn [app notifications]; try exact IH.
  case_bool_decide; cbn; by rewrite IH.
Qed.

Lemma handle_ipi_fields (st : kstate) :
  ∃ st',
    handle_ipi st = Some (tt, st') ∧
    ipi_count st' = u32 (ipi_count st + 1) ∧
    ipi_dev st' = ipi_dev st ∧
    ipi_types st' = ipi_types st ∧
    sysfs st' = sysfs st ∧
    devres st' = devres st ∧
    drvdata st' = drvdata st ∧
    trace st' =
      trace st ++
      [LoadIpiCount (ipi_count st);
       StoreIpiCount (u32 (ipi_count st + 1));
       LoadIpiDev (ipi_dev st)] ++
      match ipi_dev st with
      | Some d => [SysfsNotify d dev_attr_count]
      | None => []
      end.
Proof.
  rewrite handle_ipi_run. eexists. split; [reflexivity|].
  destruct st as [d c t s h m tr]; destruct d; cbn;
    repeat (split; [reflexivity|]); by rewrite <- !app_assoc.
Qed.

Lemma handle_ipi_notifications (st st' : kstate) (d : dev_ptr) :
  trace st' =
    trace st ++
    [LoadIpiCount (ipi_count st);
     StoreIpiCount (u32 (ipi_count st + 1));
     LoadIpiDev (ipi_dev st)] ++
    match ipi_dev st with
    | Some d => [SysfsNotify d dev_attr_count]
    | None => []
    end →
  notifications d dev_attr_count (trace st') =
  (notifications d dev_attr_count (trace st) +
   if bool_decide (ipi_dev st = Some d) then 1 else 0)%nat.
Proof.
  intros ->. rewrite !notifications_app. cbn [notifications]. f_equal.
  destruct (ipi_dev st) as [d'|]; cbn [notifications].
  - case_bool_decide as H1; case_bool_decide as H2; try reflexivity.
    + destruct H1 as [-> _]. contradiction.
    + injection H2 as ->. exfalso. apply H1. by split.
  - by rewrite bool_decide_eq_false_2.
Qed.

(** X7: invocations of the handler that do not overlap are all counted
    and, while the device reference points to a device, each one notifies
    that device once.  After [n] of them the counter is its old value plus
    [n] modulo 2^32, the reference is unchanged, and the number of
    notifications of a device [d] has grown by [n] if [d] is the referenced
    device and by 0 otherwise. *)
Theorem handle_ipi_times_counts_and_notifies (n : nat) (st : kstate) (d : dev_ptr) :
  0 ≤ ipi_count st < 2 ^ 32 →
  ∃ st',
    handle_ipi_times n st = Some (tt, st') ∧
    ipi_count st' = (ipi_count st + Z.of_nat n) mod 2 ^ 32 ∧
    ipi_dev st' = ipi_dev st ∧
    notifications d "count" (trace st') =
      (notifications d "count" (trace st) +
       if bool_decide (ipi_dev st = Some d) then n else 0)%nat.
Proof.
  revert st. induction n as [|n IH]; intros st Hc.
  - exists st. split; [reflexivity|].
    split; [rewrite Z.add_0_r, Z.mod_small; [reflexivity | assumption]|].
    split; [reflexivity|]. case_bool_decide; lia.
  - destruct (handle_ipi_fields st)
      as (st1 & Hrun & Hcount & Hdev & _ & _ & _ & _ & Htrace).
    destruct (IH st1) as (st' & Hrun' & Hcount' & Hdev' & Hnot').
    { rewrite Hcount. apply u32_range. }
    exists st'. split.
    { cbn [handle_ipi_times]. unfold bind at 1. by rewrite Hrun. }
    split; [rewrite Hcount', Hcount; apply u32_succ_plus|].
    split; [congruence|].
    pose proof (handle_ipi_notifications st st1 d Htrace) as Hnot1.
    unfold dev_attr_count in Hnot1. rewrite Hnot', Hdev, Hnot1.
    case_bool_decide; lia.
Qed.

Lemma handle_ipi_times_counts_and_notifies_witness :
  ∃ st',
    handle_ipi_times 5 activeA = Some (tt, st') ∧
    ipi_count st' = 5 ∧
    notifications 1 "count" (trace st') = 5%nat.
Proof.
  destruct (handle_ipi_times_counts_and_notifies 5 activeA 1)
    as (st' & Hrun & Hc & _ & Hn).
  - change (ipi_count activeA) with 0. lia.
  - exists st'. split; [exact Hrun|]. split; [exact Hc | exact Hn].
Defined.

(** X8: the handler does not touch the lifecycle.  While an instance is
    active, any number of invocations leaves it active, with the dispatch
    table, the attribute files and the managed state unchanged. *)
Theorem handle_ipi_times_keeps_active (n : nat) (pdev : platform_device) (st : kstate) :
  active pdev st →
  ∃ st',
    handle_ipi_times n st = Some (tt, st') ∧
    active pdev st' ∧
    ipi_types st' = ipi_types st ∧
    sysfs st' = sysfs st ∧
    devres st' = devres st ∧
    drvdata st' = drvdata st.
Proof.
  revert st. induction n as [|n IH]; intros st Hact.
  - exists st. split; [reflexivity|]. split; [exact Hact|]. by repeat split.
  - destruct (handle_ipi_fields st)
      as (st1 & Hrun & _ & Hdev & Ht & Hs & Hres & Hdrv & _).
    assert (Hact1 : active pdev st1).
    { destruct Hact as (Hd & p & x & H1 & H2 & H3 & H4 & H5).
      split; [congruence|]. exists p, x.
      rewrite Hdrv, Hres, Ht, Hs. by repeat split. }
    destruct (IH st1 Hact1) as (st' & Hrun' & Hact' & Ht' & Hs' & Hres' & Hdrv').
    exists st'. split.
    { cbn [handle_ipi_times]. unfold bind at 1. by rewrite Hrun. }
    split; [exact Hact'|]. repeat split; congruence.
Qed.

Lemma handle_ipi_times_keeps_active_witness :
  ∃ st', handle_ipi_times 3 activeA = Some (tt, st') ∧ active pdevA st'.
Proof.
  assert (Hact : active pdevA activeA).
  { split; [reflexivity|]. exists 1, {| ipi_number := 8 |}.
    repeat split; try reflexivity.
    vm_compute. eauto. }
  destruct (handle_ipi_times_keeps_active 3 pdevA activeA Hact)
    as (st' & Hrun & Hact' & _).
  exists st'. split; assumption.
Defined.

(** ** Reading the attribute *)

Lemma decimal_parses (z : Z) :
  NilZero.int_of_string (decimal z) = Some (Z.to_int z).
Proof.
  unfold decimal. apply NilZero.isi; destruct z as [|p|p]; cbn [Z.to_int];
    try discriminate;
    intros E; injection E as E; by apply (DecimalPos.Unsigned.to_uint_nonnil p).
Qed.

Lemma decimal_nonempty (z : Z) : (0 < String.length (decimal z))%nat.
Proof.
  pose proof (decimal_parses z) as Hp.
  destruct (decimal z) eqn:E; [discriminate Hp | cbn; lia].
Qed.

Lemma u32_int_of_u32 (c : Z) : 0 ≤ c < 2 ^ 32 → u32 (int_of_u32 c) = c.
Proof.
  intros Hc. unfold int_of_u32. cbv zeta.
  assert (Hu : u32 c = c) by (unfold u32; by apply Z.mod_small).
  rewrite Hu. destruct (Z.ltb_spec c (2 ^ 31)); [exact Hu|].
  unfold u32.
  replace (c - 2 ^ 32) with (c + (-1) * 2 ^ 32) by lia.
  rewrite Z.mod_add by lia. by apply Z.mod_small.
Qed.

(** X9: a read of the attribute always gives the whole text: the value
    returned is the length of the text, positive and below the page size.
    The text is a decimal integer which, taken back as a [u32], is the
    counter; the read changes neither the counter nor the reference. *)
Theorem count_show_round_trip (st : kstate) :
  0 ≤ ipi_count st < 2 ^ 32 →
  ∃ text n d st',
    count_show st = Some ((text, n), st') ∧
    n = Z.of_nat (String.length text) ∧
    0 < n < PAGE_SIZE ∧
    NilZero.int_of_string text = Some d ∧
    u32 (Z.of_int d) = ipi_count st ∧
    ipi_count st' = ipi_count st ∧
    ipi_dev st' = ipi_dev st.
Proof.
  intros Hc. rewrite count_show_text.
  eexists _, _, _, _. split; [reflexivity|]. split; [reflexivity|].
  split.
  { pose proof (decimal_nonempty (int_of_u32 (ipi_count st))) as Hn.
    pose proof (int_of_u32_bounds (ipi_count st)) as Hb.
    pose proof (length_decimal (int_of_u32 (ipi_count st)) 32 ltac:(lia)) as Hl.
    unfold PAGE_SIZE. lia. }
  split; [apply decimal_parses|].
  split; [rewrite DecimalZ.of_to; by apply u32_int_of_u32|].
  split; reflexivity.
Qed.

Lemma count_show_round_trip_witness :
  ∃ text n d st',
    count_show (set_ipi_count 4294967295 boot) = Some ((text, n), st') ∧
    NilZero.int_of_string text = Some d ∧
    u32 (Z.of_int d) = 4294967295.
Proof.
  destruct (count_show_round_trip (set_ipi_count 4294967295 boot))
    as (text & n & d & st' & Hrun & _ & _ & Hparse & Hback & _).
  - change (ipi_count (set_ipi_count 4294967295 boot)) with 4294967295. lia.
  - exists text, n, d, st'. split; [exact Hrun|]. split; [exact Hparse | exact Hback].
Defined.

(** X10: after [n] invocations of the handler that do not overlap, a read
    of the attribute gives the decimal text of the old counter plus [n],
    as long as that stays below 2^31. *)
Theorem count_show_after_interrupts (n : nat) (st : kstate) :
  0 ≤ ipi_count st →
  ipi_count st + Z.of_nat n < 2 ^ 31 →
  ∃ len st',
    (handle_ipi_times n;; count_show) st =
    Some ((decimal (ipi_count st + Z.of_nat n), len), st').
Proof.
  intros Hc Hn.
  destruct (handle_ipi_times_count n st ltac:(lia)) as (st1 & Hrun & Hcount).
  rewrite Z.mod_small in Hcount by lia.
  kstep (exact Hrun).
  rewrite count_show_text, Hcount, int_of_u32_small by lia. eauto.
Qed.

Lemma count_show_after_interrupts_witness :
  ∃ len st', (handle_ipi_times 5;; count_show) boot = Some (("5"%string, len), st').
Proof.
  destruct (count_show_after_interrupts 5 boot) as (len & st' & Hrun).
  - change (ipi_count boot) with 0. lia.
  - change (ipi_count boot) with 0. lia.
  - exists len, st'. exact Hrun.
Defined.

(** ** Two instances *)

(** X11: the driver has one device reference for all instances.  When two
    devices on different IPIs are probed one after the other, both probes
    return 0 and the reference points to the second device.  Removing the
    first device then stores NULL in the reference although the second
    one keeps its handler and its attribute: from then on the handler
    counts but notifies nobody. *)
Theorem second_instance_loses_notifications
    (o : oracle) (pdev1 pdev2 : platform_device) (st : kstate)
    (c1 c2 : Z) (cs1 cs2 : list Z) :
  kzalloc_ok o = true →
  create_file_err o = 0 →
  of_node pdev1 !! "ipi_number"%string = Some (c1 :: cs1) →
  of_node pdev2 !! "ipi_number"%string = Some (c2 :: cs2) →
  dev pdev1 ≠ dev pdev2 →
  int_of_u32 c1 ≠ int_of_u32 c2 →
  ipi_types st !! int_of_u32 c1 = None →
  ipi_types st !! int_of_u32 c2 = None →
  (dev pdev1, dev_attr_count) ∉ sysfs st →
  (dev pdev2, dev_attr_count) ∉ sysfs st →
  ∃ st1 st2 st3 st4,
    user_sgi_probe o pdev1 st = Some (0, st1) ∧
    user_sgi_probe o pdev2 st1 = Some (0, st2) ∧
    ipi_dev st2 = Some (dev pdev2) ∧
    user_sgi_remove pdev1 st2 = Some (0, st3) ∧
    ipi_dev st3 = None ∧
    ipi_types st3 !! int_of_u32 c2 = Some "user sgi"%string ∧
    (dev pdev2, dev_attr_count) ∈ sysfs st3 ∧
    handle_ipi st3 = Some (tt, st4) ∧
    ipi_count st4 = u32 (ipi_count st + 1) ∧
    notifications (dev pdev2) "count" (trace st4) =
      notifications (dev pdev2) "count" (trace st3).
Proof.
  intros Ho Hcreate Hn1 Hn2 Hdev Hipi Hfree1 Hfree2 Hfile1 Hfile2.
  set (st1 := probed pdev1 c1 st).
  set (st2 := probed pdev2 c2 st1).
  set (st3 := removed pdev1 (int_of_u32 c1) st2).
  destruct (handle_ipi_fields st3)
    as (st4 & Hrun4 & Hcount4 & _ & _ & _ & _ & _ & Htrace4).
  destruct (removed_fields pdev1 (int_of_u32 c1) st2)
    as (Hd3 & Hc3 & Ht3 & Hs3 & _ & _).
  fold st3 in Hd3, Hc3, Ht3, Hs3.
  exists st1, st2, st3, st4.
  split.
  { eapply probe_success; eauto. by rewrite create_result_absent. }
  split.
  { eapply probe_success; eauto.
    - unfold st1. rewrite probed_ipi_types. by rewrite lookup_insert_ne.
    - rewrite create_result_absent; [exact Hcreate|].
      unfold st1. rewrite probed_sysfs.
      intros [E%elem_of_singleton | E]%elem_of_union; [congruence | contradiction]. }
  split; [reflexivity|].
  split.
  { rewrite (user_sgi_remove_run pdev1 st2 (dev pdev1) {| ipi_number := u32 c1 |}).
    - cbn [ipi_number]. by rewrite int_of_u32_u32.
    - unfold st2, st1. rewrite probed_drvdata, lookup_insert_ne by congruence.
      rewrite probed_drvdata. apply lookup_insert_eq.
    - unfold st2, st1. rewrite probed_devres, !lookup_insert_ne by congruence.
      rewrite probed_devres. apply lookup_insert_eq. }
  split; [exact Hd3|].
  split.
  { rewrite Ht3, lookup_delete_ne by exact Hipi.
    unfold st2. rewrite probed_ipi_types. apply lookup_insert_eq. }
  split.
  { rewrite Hs3. apply elem_of_difference. split.
    - unfold st2. rewrite probed_sysfs. apply elem_of_union_l. by apply elem_of_singleton.
    - intros E%elem_of_singleton. congruence. }
  split; [exact Hrun4|].
  split.
  { rewrite Hcount4, Hc3. unfold st2, st1. by rewrite !probed_ipi_count. }
  pose proof (handle_ipi_notifications st3 st4 (dev pdev2) Htrace4) as Hnot.
  unfold dev_attr_count in Hnot. rewrite Hnot, Hd3.
  rewrite bool_decide_eq_false_2 by discriminate. lia.
Qed.

Lemma second_instance_loses_notifications_witness :
  ∃ st1 st2 st3 st4,
    user_sgi_probe no_faults pdevA boot = Some (0, st1) ∧
    user_sgi_probe no_faults pdevC st1 = Some (0, st2) ∧
    ipi_dev st2 = Some 4 ∧
    user_sgi_remove pdevA st2 = Some (0, st3) ∧
    ipi_dev st3 = None ∧
    ipi_types st3 !! 9 = Some "user sgi"%string ∧
    handle_ipi st3 = Some (tt, st4).
Proof.
  destruct (second_instance_loses_notifications no_faults pdevA pdevC boot 8 9 [] [])
    as (st1 & st2 & st3 & st4 & H1 & H2 & H3 & H4 & H5 & H6 & _ & H8 & _);
    try reflexivity; try discriminate; try apply not_elem_of_empty.
  exists st1, st2, st3, st4.
  repeat (split; [assumption|]). assumption.
Defined.

(** ** The handler during remove *)

Lemma run_calls_remove (pdev : platform_device) (st : kstate)
    (p : data_ptr) (x : user_sgi_data) :
  drvdata st !! dev pdev = Some p →
  devres st !! p = Some x →
  (run_calls (remove_calls pdev (int_of_u32 (ipi_number x)));; ret 0) st =
  user_sgi_remove pdev st.
Proof.
  intros Hd Hp. by rewrite (user_sgi_remove_run pdev st p x Hd Hp).
Qed.

(** X12: remove destroys the attribute before it clears the reference, so
    there is a window in which the handler still finds the device.  An
    invocation that runs after [device_remove_file] and before the store
    of NULL calls [sysfs_notify] for the attribute that is already gone;
    one that runs after the store of NULL, before the handler is cleared,
    counts and notifies nobody.  Either way remove ends as usual. *)
Theorem handler_during_remove (pdev : platform_device) (st : kstate)
    (p : data_ptr) (x : user_sgi_data) :
  ipi_dev st = Some (dev pdev) →
  drvdata st !! dev pdev = Some p →
  devres st !! p = Some x →
  (run_calls (remove_calls pdev (int_of_u32 (ipi_number x)));; ret 0) st =
    user_sgi_remove pdev st ∧
  (∃ st',
     remove_with_handler 2 pdev (int_of_u32 (ipi_number x)) st = Some (tt, st') ∧
     trace st' =
       trace st ++
       [Printk ("removing user sgi" +:+ nl);
        DeviceRemoveFile (dev pdev) "count";
        LoadIpiCount (ipi_count st);
        StoreIpiCount (u32 (ipi_count st + 1));
        LoadIpiDev (Some (dev pdev));
        SysfsNotify (dev pdev) "count";
        StoreIpiDev None;
        ClearIpiHandler (int_of_u32 (ipi_number x))] ∧
     ipi_dev st' = None ∧
     ipi_types st' = delete (int_of_u32 (ipi_number x)) (ipi_types st) ∧
     sysfs st' = sysfs st ∖ {[ (dev pdev, "count"%string) ]}) ∧
  (∃ st',
     remove_with_handler 3 pdev (int_of_u32 (ipi_number x)) st = Some (tt, st') ∧
     trace st' =
       trace st ++
       [Printk ("removing user sgi" +:+ nl);
        DeviceRemoveFile (dev pdev) "count";
        StoreIpiDev None;
        LoadIpiCount (ipi_count st);
        StoreIpiCount (u32 (ipi_count st + 1));
        LoadIpiDev None;
        ClearIpiHandler (int_of_u32 (ipi_number x))] ∧
     ipi_dev st' = None ∧
     ipi_types st' = delete (int_of_u32 (ipi_number x)) (ipi_types st) ∧
     sysfs st' = sysfs st ∖ {[ (dev pdev, "count"%string) ]}).
Proof.
  intros Hdev Hd Hp. split; [by apply (run_calls_remove pdev st p x)|].
  destruct st as [d c t s h m tr]. cbn [ipi_dev drvdata devres] in Hdev, Hd, Hp.
  subst d. split.
  - eexists. split; [reflexivity|]. cbn.
    repeat split. by rewrite <- !app_assoc.
  - eexists. split; [reflexivity|]. cbn.
    repeat split. by rewrite <- !app_assoc.
Qed.

Lemma handler_during_remove_witness :
  ∃ st',
    remove_with_handler 2 pdevA 8 activeA = Some (tt, st') ∧
    notifications 1 "count" (trace st') = 1%nat ∧
    (1, "count"%string) ∉ sysfs st'.
Proof.
  destruct (handler_during_remove pdevA activeA 1 {| ipi_number := 8 |})
    as (_ & (st' & Hrun & Htrace & _ & _ & Hsysfs) & _); try reflexivity.
  exists st'. split; [exact Hrun|]. split.
  - rewrite Htrace. reflexivity.
  - rewrite Hsysfs. apply not_elem_of_difference. right. by apply elem_of_singleton.
Defined.

(** ** Invocations on several cores, in any interleaving *)

Lemma stores_done_insert (cores : list hpc) (i : nat) (pc pc' : hpc) :
  cores !! i = Some pc →
  (stores_done (<[i := pc']> cores) + (if stored pc then 1 else 0) =
   stores_done cores + (if stored pc' then 1 else 0))%nat.
Proof.
  revert i. induction cores as [|q cores IH]; intros i Hi; [discriminate Hi|].
  destruct i as [|i].
  - injection Hi as ->. change (<[0%nat := pc']> (pc :: cores)) with (pc' :: cores).
    cbn [stores_done]. destruct (stored pc), (stored pc'); lia.
  - change (cores !! i = Some pc) in Hi. specialize (IH i Hi).
    change (<[S i := pc']> (q :: cores)) with (q :: <[i := pc']> cores).
    cbn [stores_done]. destruct (stored q), (stored pc), (stored pc'); lia.
Qed.

Lemma stores_done_le (cores : list hpc) : (stores_done cores ≤ length cores)%nat.
Proof.
  induction cores as [|q cores IH]; [reflexivity|].
  cbn [stores_done length]. destruct (stored q); lia.
Qed.

Lemma stores_done_replicate_start (n : nat) :
  stores_done (replicate n AtLoadCount) = 0%nat.
Proof. induction n as [|n IH]; [reflexivity | exact IH]. Qed.

Lemma stores_done_replicate_returned (n : nat) :
  stores_done (replicate n Returned) = n.
Proof. induction n as [|n IH]; [reflexivity | cbn; by rewrite IH]. Qed.

Lemma pending_between_mono (lo hi hi' : Z) (pc : hpc) :
  hi ≤ hi' → pending_between lo hi pc → pending_between lo hi' pc.
Proof. intros Hle. destruct pc; cbn; lia. Qed.

(** One step of one core keeps [counted]. *)
Lemma handle_ipi_step_counted
    (init : Z) (cores : list hpc) (st : kstate) (i : nat) (pc : hpc) :
  0 ≤ init →
  init + Z.of_nat (length cores) < 2 ^ 32 →
  cores !! i = Some pc →
  counted init cores st →
  ∃ pc' st',
    handle_ipi_step pc st = Some (pc', st') ∧
    counted init (<[i := pc']> cores) st'.
Proof.
  intros Hinit Hlen Hi (Hcount & Hfirst & Hpend).
  pose proof (stores_done_le cores) as Hle.
  pose proof (proj1 (Forall_lookup _ _) Hpend i pc Hi) as Hpc.
  destruct pc as [|c| |d|].
  - (* the read of the counter *)
    eexists _, _. split; [reflexivity|].
    pose proof (stores_done_insert cores i AtLoadCount (AtStoreCount (ipi_count st)) Hi) as Hk.
    cbn [stored] in Hk.
    assert (Hk' : stores_done (<[i := AtStoreCount (ipi_count st)]> cores) = stores_done cores)
      by lia.
    unfold counted. rewrite Hk'. cbn [ipi_count log].
    split; [exact Hcount|]. split; [exact Hfirst|].
    apply Forall_insert; [exact Hpend | exact Hcount].
  - (* the store *)
    eexists _, _. split; [reflexivity|].
    pose proof (stores_done_insert cores i (AtStoreCount c) AtLoadDev Hi) as Hk.
    cbn [stored] in Hk.
    pose proof (stores_done_le (<[i := AtLoadDev]> cores)) as Hle'.
    rewrite length_insert in Hle'.
    assert (Hk' : stores_done (<[i := AtLoadDev]> cores) = S (stores_done cores)) by lia.
    cbn [pending_between] in Hpc.
    assert (Hu : u32 (c + 1) = c + 1) by (unfold u32; apply Z.mod_small; lia).
    unfold counted. rewrite Hk'.
    change (ipi_count (log (StoreIpiCount (u32 (c + 1))) (set_ipi_count (u32 (c + 1)) st)))
      with (u32 (c + 1)).
    rewrite Hu. split; [lia|]. split; [right; lia|].
    apply Forall_insert; [|exact I].
    eapply Forall_impl; [exact Hpend|].
    intros q. apply pending_between_mono. lia.
  - (* the load of the reference *)
    eexists _, _. split; [reflexivity|].
    pose proof (stores_done_insert cores i AtLoadDev (AtNotify (ipi_dev st)) Hi) as Hk.
    cbn [stored] in Hk.
    assert (Hk' : stores_done (<[i := AtNotify (ipi_dev st)]> cores) = stores_done cores)
      by lia.
    unfold counted. rewrite Hk'. cbn [ipi_count log].
    split; [exact Hcount|]. split; [exact Hfirst|].
    apply Forall_insert; [exact Hpend | exact I].
  - (* the test and the notification *)
    pose proof (stores_done_insert cores i (AtNotify d) Returned Hi) as Hk.
    cbn [stored] in Hk.
    assert (Hk' : stores_done (<[i := Returned]> cores) = stores_done cores) by lia.
    destruct d as [d|]; (eexists _, _; split; [reflexivity|]);
      unfold counted; rewrite Hk'; cbn [ipi_count log];
      (split; [exact Hcount|]; split; [exact Hfirst|];
       apply Forall_insert; [exact Hpend | exact I]).
  - (* a core that has returned *)
    eexists _, _. split; [reflexivity|].
    rewrite (list_insert_id cores i Returned Hi).
    exact (conj Hcount (conj Hfirst Hpend)).
Qed.

Lemma run_cores_counted (sched : list nat) (init : Z) (cores : list hpc) (st : kstate) :
  0 ≤ init →
  init + Z.of_nat (length cores) < 2 ^ 32 →
  counted init cores st →
  ∃ cores' st',
    run_cores sched cores st = Some (cores', st') ∧
    length cores' = length cores ∧
    counted init cores' st'.
Proof.
  intros Hinit. revert cores st.
  induction sched as [|i sched IH]; intros cores st Hlen Hinv.
  - exists cores, st. split; [reflexivity|]. split; [reflexivity | exact Hinv].
  - cbn [run_cores]. destruct (cores !! i) as [pc|] eqn:Hi.
    + destruct (handle_ipi_step_counted init cores st i pc Hinit Hlen Hi Hinv)
        as (pc' & st1 & Hstep & Hinv1).
      destruct (IH (<[i := pc']> cores) st1) as (cores' & st' & Hrun & Hl & Hinv');
        [by rewrite length_insert | exact Hinv1 |].
      exists cores', st'. split; [|split].
      * unfold bind. by rewrite Hstep.
      * by rewrite Hl, length_insert.
      * exact Hinv'.
    + by apply IH.
Qed.

(** X13: whatever the interleaving of [n] invocations of the handler on
    [n] cores, no step faults and the counter never gains more than one
    per store made: it stays between its old value and the old value plus
    the number of cores that have stored, and is above the old value as
    soon as one core has stored.  (The counter is assumed not to wrap
    during these invocations.) *)
Theorem run_cores_count_bounds (sched : list nat) (n : nat) (st : kstate) :
  0 ≤ ipi_count st →
  ipi_count st + Z.of_nat n < 2 ^ 32 →
  ∃ cores' st',
    run_cores sched (replicate n AtLoadCount) st = Some (cores', st') ∧
    length cores' = n ∧
    (stores_done cores' ≤ n)%nat ∧
    ipi_count st ≤ ipi_count st' ≤ ipi_count st + Z.of_nat (stores_done cores') ∧
    (stores_done cores' = 0%nat ∨ ipi_count st + 1 ≤ ipi_count st').
Proof.
  intros Hinit Hn.
  destruct (run_cores_counted sched (ipi_count st) (replicate n AtLoadCount) st)
    as (cores' & st' & Hrun & Hl & Hcount & Hfirst & _).
  - exact Hinit.
  - by rewrite length_replicate.
  - unfold counted. rewrite stores_done_replicate_start.
    split; [lia|]. split; [by left|].
    apply Forall_replicate. exact I.
  - rewrite length_replicate in Hl.
    exists cores', st'. split; [exact Hrun|]. split; [exact Hl|].
    split; [rewrite <- Hl; apply stores_done_le|].
    split; [exact Hcount | exact Hfirst].
Qed.

Lemma run_cores_count_bounds_witness :
  ∃ cores' st',
    run_cores [0; 1; 0]%nat (replicate 2 AtLoadCount) boot = Some (cores', st') ∧
    0 ≤ ipi_count st' ≤ 2.
Proof.
  destruct (run_cores_count_bounds [0; 1; 0]%nat 2 boot)
    as (cores' & st' & Hrun & _ & Hle & Hcount & _).
  - change (ipi_count boot) with 0. lia.
  - change (ipi_count boot) with 0. lia.
  - exists cores', st'. split; [exact Hrun|].
    change (ipi_count boot) with 0 in Hcount. lia.
Defined.

(** X14: when [n] invocations on [n] cores, interleaved in any way, have
    all returned, at least one and at most [n] of them are counted: the
    counter is between its old value plus 1 and its old value plus [n].
    (The counter is assumed not to wrap during these invocations.) *)
Theorem run_cores_quiescent_count
    (sched : list nat) (n : nat) (st st' : kstate) :
  0 ≤ ipi_count st →
  ipi_count st + Z.of_nat n < 2 ^ 32 →
  (0 < n)%nat →
  run_cores sched (replicate n AtLoadCount) st = Some (replicate n Returned, st') →
  ipi_count st + 1 ≤ ipi_count st' ≤ ipi_count st + Z.of_nat n.
Proof.
  intros Hinit Hn Hpos Hrun.
  destruct (run_cores_counted sched (ipi_count st) (replicate n AtLoadCount) st)
    as (cores' & st1 & Hrun1 & _ & Hcount & Hfirst & _).
  - exact Hinit.
  - by rewrite length_replicate.
  - unfold counted. rewrite stores_done_replicate_start.
    split; [lia|]. split; [by left|].
    apply Forall_replicate. exact I.
  - rewrite Hrun in Hrun1. injection Hrun1 as <- <-.
    rewrite stores_done_replicate_returned in Hcount, Hfirst.
    destruct Hfirst as [Hz|Hf]; lia.
Qed.

Lemma run_cores_quiescent_count_witness :
  ∃ st',
    run_cores [0; 1; 0; 1; 0; 1; 0; 1]%nat (replicate 2 AtLoadCount) boot
      = Some (replicate 2 Returned, st') ∧
    1 ≤ ipi_count st' ≤ 2.
Proof.
  eexists. split; [reflexivity|].
  apply (run_cores_quiescent_count [0; 1; 0; 1; 0; 1; 0; 1]%nat 2 boot).
  - change (ipi_count boot) with 0. lia.
  - change (ipi_count boot) with 0. lia.
  - lia.
  - reflexivity.
Defined.
